(** * alchemist.py: tiered bombs, their damage score, rendering, search and ranking

    A shallow embedding of [alchemist.py] and the properties of its
    damage estimator ([Variant.avg_dmg]), search matcher ([Bomb.match]),
    renderer ([Bomb.variant_str], [parse_bomb]) and top-level scan-and-rank
    loop ([main]).

    Python values are modelled as follows.
    - [int] is [Z] (unbounded).
    - [float] is an IEEE-754 binary64 value, [spec_float] at precision 53
      and maximal exponent 1024, with the operations of [SpecFloat].
    - [str] is [string]; a character stands for the code point of the same
      number (below 256).
    - an [int | str] field is the tagged value [IntOrStr].
    - a [dict] that is iterated is an association list in insertion order.
    - a raised exception is the [Raise] case of [result]; output goes to a
      trace of print events. *)

From Stdlib Require Import ZArith List String Ascii Bool Lia.
From Stdlib Require Import Decimal DecimalString DecimalZ DecimalPos DecimalN.
From Stdlib Require Import Floats.SpecFloat.
From Stdlib Require Import Sorting.Sorted Sorting.Permutation.
Import ListNotations.

#[local] Open Scope string_scope.
#[local] Open Scope Z_scope.

(** ** Exceptions and the error monad *)

Inductive exn : Type :=
| ValueError
| OverflowError
| IndexError
| KeyError
| ZeroDivisionError.

Inductive result (A : Type) : Type :=
| Ok (a : A)
| Raise (e : exn).
Arguments Ok {A} a.
Arguments Raise {A} e.

Definition bind {A B : Type} (r : result A) (k : A -> result B) : result B :=
  match r with
  | Ok a => k a
  | Raise e => Raise e
  end.

Declare Scope py_scope.
Delimit Scope py_scope with py.
Notation "x <- c1 ;; c2" := (bind c1 (fun x => c2))
  (at level 61, c1 at next level, right associativity) : py_scope.
Notation "' pat <- c1 ;; c2" := (bind c1 (fun x => match x with pat => c2 end))
  (at level 61, pat pattern, c1 at next level, right associativity) : py_scope.
#[local] Open Scope py_scope.

Definition raises {A : Type} (r : result A) : Prop := exists e, r = Raise e.

(** ** Strings *)

Module PyStr.

Definition nl : string := String (ascii_of_nat 10) EmptyString.

(** [sub in s]: [sub] occurs in [s] as a contiguous run of characters. *)
Fixpoint contains (sub s : string) : bool :=
  if prefix sub s then true
  else match s with
       | EmptyString => false
       | String _ s' => contains sub s'
       end.

(** [s.split(sep)] for a one-character separator. *)
Fixpoint split (sep : ascii) (s : string) : list string :=
  match s with
  | EmptyString => [EmptyString]
  | String a s' =>
      if Ascii.eqb a sep then EmptyString :: split sep s'
      else match split sep s' with
           | p :: ps => String a p :: ps
           | [] => [String a EmptyString]
           end
  end.

(** [sep.join(parts)] *)
Fixpoint join (sep : string) (parts : list string) : string :=
  match parts with
  | [] => EmptyString
  | [p] => p
  | p :: ps => p ++ sep ++ join sep ps
  end.

Definition is_lower (a : ascii) : bool :=
  let n := nat_of_ascii a in (97 <=? n)%nat && (n <=? 122)%nat.
Definition is_upper (a : ascii) : bool :=
  let n := nat_of_ascii a in (65 <=? n)%nat && (n <=? 90)%nat.
Definition is_cased (a : ascii) : bool := is_lower a || is_upper a.
Definition to_upper (a : ascii) : ascii :=
  if is_lower a then ascii_of_nat (nat_of_ascii a - 32) else a.
Definition to_lower (a : ascii) : ascii :=
  if is_upper a then ascii_of_nat (nat_of_ascii a + 32) else a.

(** [s.title()] on ASCII text: a letter that follows a letter is lowered,
    any other letter is raised. *)
Fixpoint title_from (previous_is_cased : bool) (s : string) : string :=
  match s with
  | EmptyString => EmptyString
  | String a s' =>
      String (if previous_is_cased then to_lower a else to_upper a)
             (title_from (is_cased a) s')
  end.
Definition title (s : string) : string := title_from false s.

(** [str(n)] for an [int]. *)
Definition of_int (n : Z) : string := NilZero.string_of_int (Z.to_int n).

(** *** [int(s)]

    Surrounding whitespace is dropped, one sign is accepted, and the digits
    may be grouped by single underscores.  The interpreter's optional cap on
    the number of digits ([sys.set_int_max_str_digits]) is a setting of the
    interpreter and is left out. *)

Definition is_space (a : ascii) : bool :=
  let n := nat_of_ascii a in
  ((9 <=? n)%nat && (n <=? 13)%nat) || (n =? 32)%nat || (n =? 133)%nat || (n =? 160)%nat.

Definition is_digit (a : ascii) : bool :=
  let n := nat_of_ascii a in (48 <=? n)%nat && (n <=? 57)%nat.

Fixpoint lstrip (s : string) : string :=
  match s with
  | EmptyString => EmptyString
  | String a s' => if is_space a then lstrip s' else s
  end.

Fixpoint all_space (s : string) : bool :=
  match s with
  | EmptyString => true
  | String a s' => is_space a && all_space s'
  end.

(** The digits of a literal, read left to right; [prev_digit] tells whether
    the previous character was a digit (an underscore needs a digit on both
    sides).  Returns the digits without the underscores, and the rest of the
    text after the literal. *)
Fixpoint scan_digits (prev_digit : bool) (s : string) : option (string * string) :=
  match s with
  | EmptyString => if prev_digit then Some (EmptyString, EmptyString) else None
  | String a s' =>
      if is_digit a then
        match scan_digits true s' with
        | Some (ds, rest) => Some (String a ds, rest)
        | None => None
        end
      else if Ascii.eqb a "_" then
        if prev_digit then
          match s' with
          | String b _ => if is_digit b then scan_digits false s' else None
          | EmptyString => None
          end
        else None
      else if prev_digit then Some (EmptyString, s) else None
  end.

Definition to_int (s : string) : option Z :=
  let s1 := lstrip s in
  let '(neg, s2) :=
    match s1 with
    | String "-" t => (true, t)
    | String "+" t => (false, t)
    | _ => (false, s1)
    end in
  match scan_digits false s2 with
  | Some (ds, rest) =>
      if all_space rest then
        match NilZero.uint_of_string ds with
        | Some d => Some (if neg then Z.opp (Z.of_uint d) else Z.of_uint d)
        | None => None
        end
      else None
  | None => None
  end.

(** Vocabulary for the properties of [of_int] and [split]. *)



End PyStr.

(** ** Floats *)

Module PyFloat.

Definition prec : Z := 53.
Definition emax : Z := 1024.

Definition float : Type := spec_float.

Definition mul : float -> float -> float := SFmul prec emax.
Definition add : float -> float -> float := SFadd prec emax.
Definition ltb : float -> float -> bool := SFltb.
Definition eqb : float -> float -> bool := SFeqb.

(** The float nearest to the fraction [n / d] (ties to even). *)
Definition round_ratio (n : Z) (d : positive) : float :=
  match n with
  | Z0 => S754_zero false
  | Zpos p => SFdiv prec emax (S754_finite false p 0) (S754_finite false d 0)
  | Zneg p => SFdiv prec emax (S754_finite true p 0) (S754_finite false d 0)
  end.

Definition finite_or (e : exn) (x : float) : result float :=
  match x with
  | S754_infinity _ | S754_nan => Raise e
  | _ => Ok x
  end.

Definition finite (x : float) : bool :=
  match x with
  | S754_zero _ | S754_finite _ _ _ => true
  | _ => false
  end.

Definition not_nan (x : float) : bool :=
  match x with
  | S754_nan => false
  | _ => true
  end.



(** [float(n)] as the arithmetic operators apply it to an [int] operand:
    the nearest float, or OverflowError. *)
Definition of_int (n : Z) : result float :=
  finite_or OverflowError (binary_normalize prec emax n 0 false).

(** [a / b] on two [int]s: the nearest float to the exact quotient. *)
Definition int_truediv (a b : Z) : result float :=
  match b with
  | Z0 => Raise ZeroDivisionError
  | Zpos d => finite_or OverflowError (round_ratio a d)
  | Zneg d => finite_or OverflowError (round_ratio (- a) d)
  end.

(** [n * y] and [n + y] for an [int] [n] and a float [y]. *)
Definition int_mul (n : Z) (y : float) : result float :=
  x <- of_int n ;; Ok (mul x y).
Definition int_add (n : Z) (y : float) : result float :=
  x <- of_int n ;; Ok (add x y).

(** The literal [3.24]. *)
Definition lit_3_24 : float := Eval vm_compute in round_ratio 324 100.

(** *** [repr(x)]: the shortest decimal text that reads back as [x] *)

(** The exact value of a finite float [m * 2^e] as a fraction. *)
Definition ratio_of (m : positive) (e : Z) : Z * positive :=
  match e with
  | Zneg k => (Zpos m, Pos.pow 2 k)
  | _ => (Zpos m * 2 ^ e, 1%positive)
  end.

(** [scale10 (n, d) k] is the fraction [n / d * 10^k]. *)
Definition scale10 (x : Z * positive) (k : Z) : Z * positive :=
  match k with
  | Zneg j => (fst x, (snd x * Pos.pow 10 j)%positive)
  | _ => (fst x * 10 ^ k, snd x)
  end.

(** The number of decimal digits of a positive integer. *)
Definition decimal_length (n : Z) : Z :=
  Z.of_nat (String.length (NilZero.string_of_uint (N.to_uint (Z.to_N n)))).

(** The least [p], counting up from [p0], with [x < 10^p]; a fraction whose
    numerator has [a] digits and whose denominator has [b] digits lies
    between [10^(a-b-1)] and [10^(a-b+1)]. *)
Fixpoint decimal_point (fuel : nat) (x : Z * positive) (p0 : Z) : Z :=
  match fuel with
  | O => p0
  | S fuel' =>
      let '(n, d) := scale10 x (- p0) in
      if n <? Zpos d then p0 else decimal_point fuel' x (p0 + 1)
  end.

Definition same_float (x y : float) : bool :=
  match x, y with
  | S754_finite sx mx ex, S754_finite sy my ey =>
      Bool.eqb sx sy && Pos.eqb mx my && Z.eqb ex ey
  | _, _ => false
  end.

(** The integer [c] for which [c * 10^(p - k)] is the [k]-digit decimal
    nearest to the positive float [x] among those that read back as [x]. *)
Definition candidate (x : float) (v : Z * positive) (p : Z) (k : Z) : option Z :=
  let '(n, d) := scale10 v (k - p) in
  let lo := n / Zpos d in
  let r := n mod Zpos d in
  let hi := if r =? 0 then lo else lo + 1 in
  let back c := let '(cn, cd) := scale10 (c, 1%positive) (p - k) in
                same_float (round_ratio cn cd) x in
  let lo_first := (2 * r <? Zpos d) || ((2 * r =? Zpos d) && Z.even lo) in
  match back lo, back hi with
  | true, true => Some (if lo_first then lo else hi)
  | true, false => Some lo
  | false, true => Some hi
  | false, false => None
  end.

Fixpoint shortest (fuel : nat) (x : float) (v : Z * positive) (p : Z) (k : Z) : Z * Z :=
  match candidate x v p k with
  | Some c => (c, k)
  | None =>
      match fuel with
      | O => (0, k)
      | S fuel' => shortest fuel' x v p (k + 1)
      end
  end.

Fixpoint strip_zeros_rev (s : list ascii) : list ascii :=
  match s with
  | "0"%char :: s' => strip_zeros_rev s'
  | _ => s
  end.

Definition rstrip_zeros (s : string) : string :=
  string_of_list_ascii
    (List.rev (strip_zeros_rev (List.rev (list_ascii_of_string s)))).

Fixpoint zeros (n : nat) : string :=
  match n with
  | O => EmptyString
  | S n' => String "0" (zeros n')
  end.

(** The digits of [x], without trailing zeros, and the position [decpt] of
    the decimal point: [x = 0.d1d2... * 10^decpt]. *)
Definition digits_of (x : float) (m : positive) (e : Z) : string * Z :=
  let v := ratio_of m e in
  let p := decimal_point 3 v (decimal_length (fst v) - decimal_length (Zpos (snd v))) in
  let '(c, k) := shortest 17 x v p 1 in
  let ds := NilZero.string_of_uint (N.to_uint (Z.to_N c)) in
  (rstrip_zeros ds, p + (Z.of_nat (String.length ds) - k)).

Definition pad2 (s : string) : string :=
  match s with
  | String a EmptyString => String "0" s
  | _ => s
  end.

Definition layout (ds : string) (decpt : Z) : string :=
  let n := Z.of_nat (String.length ds) in
  if (decpt <=? -4) || (16 <? decpt) then
    let e := decpt - 1 in
    let mant :=
      match ds with
      | String a EmptyString => ds
      | String a rest => String a ("." ++ rest)
      | EmptyString => ds
      end in
    mant ++ "e" ++ (if e <? 0 then "-" else "+")
         ++ pad2 (NilZero.string_of_uint (N.to_uint (Z.to_N (Z.abs e))))
  else if decpt <=? 0 then
    "0." ++ zeros (Z.to_nat (- decpt)) ++ ds
  else if n <=? decpt then
    ds ++ zeros (Z.to_nat (decpt - n)) ++ ".0"
  else
    substring 0 (Z.to_nat decpt) ds ++ "."
      ++ substring (Z.to_nat decpt) (Z.to_nat (n - decpt)) ds.

Definition repr (x : float) : string :=
  match x with
  | S754_nan => "nan"
  | S754_infinity s => if s then "-inf" else "inf"
  | S754_zero s => if s then "-0.0" else "0.0"
  | S754_finite s m e =>
      let '(ds, decpt) := digits_of (S754_finite false m e) m e in
      (if s then "-" else EmptyString) ++ layout ds decpt
  end.

End PyFloat.


(** ** Entity model *)

(** A field typed [int | str]. *)
Inductive IntOrStr : Type :=
| Int (n : Z)
| Str (s : string).

(** Truth value of an [int | str]: nonzero, or nonempty. *)
Definition truthy (v : IntOrStr) : bool :=
  match v with
  | Int n => negb (n =? 0)
  | Str s => negb (String.eqb s EmptyString)
  end.

(** [f"{v}"] *)
Definition format (v : IntOrStr) : string :=
  match v with
  | Int n => PyStr.of_int n
  | Str s => s
  end.

Definition nonempty (s : string) : bool := negb (String.eqb s EmptyString).

(** A value that is an [int] or a [float] at run time. *)
Inductive number : Type :=
| I (n : Z)
| F (x : PyFloat.float).

Definition number_add (a b : number) : result number :=
  match a, b with
  | I x, I y => Ok (I (x + y))
  | I x, F y => r <- PyFloat.int_add x y ;; Ok (F r)
  | F x, I y => r <- PyFloat.of_int y ;; Ok (F (PyFloat.add x r))
  | F x, F y => Ok (F (PyFloat.add x y))
  end.

Definition number_mul_float (a : number) (y : PyFloat.float) : result PyFloat.float :=
  match a with
  | I n => PyFloat.int_mul n y
  | F x => Ok (PyFloat.mul x y)
  end.

Definition int (s : string) : result Z :=
  match PyStr.to_int s with
  | Some n => Ok n
  | None => Raise ValueError
  end.

(** [d[k]] on a dict held as an association list. *)
Fixpoint getitem {V : Type} (d : list (Z * V)) (k : Z) : result V :=
  match d with
  | [] => Raise KeyError
  | (k', v) :: d' => if k' =? k then Ok v else getitem d' k
  end.

Module Save.

Record t : Type := {
  type : string;
  basic : bool;
  success : string;
  failure : string;
  critical : string
}.

(** [Save.__str__] *)
Definition str (self : t) : string :=
  let save_desc :=
    "Creatures within the area of effect must make a "
      ++ (if basic self then "basic " else EmptyString) ++ type self ++ " save." ++ PyStr.nl in
  let save_desc :=
    if nonempty (success self)
    then save_desc ++ "  Success: The target is " ++ success self ++ "." ++ PyStr.nl
    else save_desc in
  let save_desc :=
    if nonempty (failure self)
    then save_desc ++ "  Failure: The target is " ++ failure self ++ "." ++ PyStr.nl
    else save_desc in
  let save_desc :=
    if nonempty (critical self)
    then save_desc ++ "  Critical Failure: The target is " ++ critical self ++ "." ++ PyStr.nl
    else save_desc in
  save_desc.

End Save.

Module Variant.

Record t : Type := {
  level : string;
  bonus : Z;
  damage : IntOrStr;
  splash : Z;
  persistent : IntOrStr
}.

(** [count, damage = s.split("d")] followed by
    [int(count) * int(damage) / 2]. *)
Definition dice_average (s : string) : result PyFloat.float :=
  match PyStr.split "d" s with
  | [count; damage] =>
      c <- int count ;;
      d <- int damage ;;
      PyFloat.int_truediv (c * d) 2
  | _ => Raise ValueError
  end.

(** [Variant.avg_dmg].  The sum [total] of the first half is overwritten by
    the last assignment; it is still computed, and can still raise. *)
Definition avg_dmg (self : t) : result PyFloat.float :=
  let total := I (splash self) in
  total <- match damage self with
           | Int n => number_add total (I n)
           | Str s => x <- dice_average s ;; number_add total (F x)
           end ;;
  persist <- match persistent self with
             | Int p => Ok (I (p + splash self))
             | Str s => x <- dice_average s ;; Ok (F x)
             end ;;
  number_mul_float persist PyFloat.lit_3_24.

End Variant.

Module Bomb.

Record t : Type := {
  type : string;
  levels : list (Z * Variant.t);
  on_hit : string;
  on_crit : string;
  additional : string;
  save : option Save.t
}.

Definition append_if (c : bool) (l : list string) (s : string) : list string :=
  if c then l ++ [s] else l.

(** [Bomb.variant_str] *)
Definition variant_str (self : t) (level : Z) : result string :=
  variant <- getitem (levels self) level ;;
  let description := [] in
  let save_text :=
    match save self with
    | Some sv => Save.str sv
    | None => EmptyString
    end in
  let bonus := Variant.bonus variant in
  let description :=
    append_if (negb (bonus =? 0)) description
      ("You gain a +" ++ PyStr.of_int bonus ++ " bonus to attack rolls") in
  let damages := [] in
  let damage_type := type self in
  let damage := Variant.damage variant in
  let damages :=
    append_if (truthy damage) damages
      (format damage ++ " " ++ damage_type ++ " damage") in
  let persistent := Variant.persistent variant in
  let damages :=
    append_if (truthy persistent) damages
      (format persistent ++ " persistent " ++ damage_type ++ " damage") in
  let splash := Variant.splash variant in
  let damages :=
    append_if (negb (splash =? 0)) damages
      (PyStr.of_int splash ++ " " ++ damage_type ++ " splash damage") in
  let damages :=
    append_if (nonempty (additional self)) damages
      (format damage ++ " additional " ++ additional self ++ " damage") in
  let description :=
    append_if (match damages with [] => false | _ => true end) description
      ("The bomb deals " ++ PyStr.join ", " damages) in
  let description :=
    append_if (nonempty (on_hit self)) description
      ("On a hit, the target is " ++ on_hit self
         ++ " until the start of your next turn") in
  let description :=
    append_if (nonempty (on_crit self)) description
      ("On a critical hit, the target is " ++ on_crit self
         ++ " until the start of your next turn") in
  Ok (save_text ++ PyStr.join ". " description ++ ".").

(** The [any((...))] of [Bomb.match] for one token, prefix already removed. *)
Definition check (self : t) (item : string) : bool :=
  PyStr.contains item (type self)
  || PyStr.contains item (on_hit self)
  || PyStr.contains item (on_crit self)
  || PyStr.contains item (additional self)
  || match save self with
     | Some sv => PyStr.contains item (Save.str sv)
     | None => false
     end.

(** The loop of [Bomb.match]; [m] is the variable [match]. *)
Fixpoint match_loop (self : t) (m : bool) (search : list string) : result bool :=
  match search with
  | [] => Ok m
  | item :: search' =>
      match item with
      | EmptyString => Raise IndexError
      | String c rest =>
          let '(item, negate) :=
            if Ascii.eqb c "-" then (rest, true) else (item, false) in
          let check := check self item in
          let m := if negate then m && negb check else m && check in
          if negb m then Ok false else match_loop self m search'
      end
  end.

(** [Bomb.match] *)
Definition match_ (self : t) (search : list string) : result bool :=
  match_loop self true search.

(** Whether one non-empty token is satisfied: a leading ['-'] is removed
    and negates the test. *)
Definition token_ok (self : Bomb.t) (item : string) : bool :=
  match item with
  | EmptyString => false
  | String c rest =>
      if Ascii.eqb c "-" then negb (check self rest) else check self item
  end.

End Bomb.

(** [parse_bomb] *)
Definition parse_bomb (name : string) (bomb : Bomb.t) (level : Z) : result string :=
  variant <- getitem (Bomb.levels bomb) level ;;
  score <- Variant.avg_dmg variant ;;
  let full_name :=
    PyStr.title name ++ " (" ++ PyStr.title (Variant.level variant) ++ ") ["
      ++ PyStr.of_int level ++ "] (" ++ PyFloat.repr score ++ " dmg)" in
  body <- Bomb.variant_str bomb level ;;
  Ok (full_name ++ PyStr.nl ++ body ++ PyStr.nl).

(** ** The program: scan, select, rank, print *)

(** What the program writes: the bare name of a catalog item that is not in
    the formula book (the [print(bomb)] of the scan), or a rendered block
    (the [print(parse_bomb(...))] of the final loop). *)
Inductive event : Type :=
| PrintName (name : string)
| PrintBlock (text : string).

(** The text [print] writes for an event. *)
Definition written (e : event) : string :=
  match e with
  | PrintName s => s ++ PyStr.nl
  | PrintBlock s => s ++ PyStr.nl
  end.

(** The text on standard output after a run of events. *)
Fixpoint stdout (out : list event) : string :=
  match out with
  | [] => EmptyString
  | e :: out' => written e ++ stdout out'
  end.

(** A computation that prints: the events written, then its result, which
    is a value or the exception that stopped it. *)
Definition io (A : Type) : Type := list event * result A.

Definition io_ret {A : Type} (a : A) : io A := ([], Ok a).
Definition io_bind {A B : Type} (c : io A) (k : A -> io B) : io B :=
  match c with
  | (out, Ok a) => let '(out', r) := k a in ((out ++ out')%list, r)
  | (out, Raise e) => (out, Raise e)
  end.
Definition print (e : event) : io unit := ([e], Ok tt).
Definition lift {A : Type} (r : result A) : io A := ([], r).

Notation "x <~ c1 ;; c2" := (io_bind c1 (fun x => c2))
  (at level 61, c1 at next level, right associativity) : py_scope.

(** The level selector: the inner [for level in levels] loop of [main],
    over the keys in iteration order; [version] is the variable of that
    name, [0] before the loop. *)
Fixpoint select_level (keys : list Z) (ceiling version : Z) : Z :=
  match keys with
  | [] => version
  | level :: keys' =>
      if level >? ceiling then version
      else select_level keys' ceiling level
  end.

Definition entry : Type := string * Bomb.t * Z.

(** The first loop of [main]: [for bomb in bombs]. *)
Fixpoint scan (config_level : Z) (formulae search : list string)
         (bombs : list (string * Bomb.t)) : io (list entry) :=
  match bombs with
  | [] => io_ret []
  | (name, bomb) :: bombs' =>
      skip <~ match search with
              | [] => io_ret false
              | _ => m <~ lift (Bomb.match_ bomb search) ;; io_ret (negb m)
              end ;;
      if skip : bool then scan config_level formulae search bombs'
      else if negb (existsb (String.eqb name) formulae) then
        _ <~ print (PrintName name) ;;
        scan config_level formulae search bombs'
      else
        let version := select_level (map fst (Bomb.levels bomb)) config_level 0 in
        variants <~ scan config_level formulae search bombs' ;;
        io_ret (if negb (version =? 0) then (name, bomb, version) :: variants
                else variants)
  end.

(** The sort key of [main]: [x[1].levels[x[2]].avg_dmg]. *)
Definition sort_key (x : entry) : result PyFloat.float :=
  let '(_, bomb, level) := x in
  variant <- getitem (Bomb.levels bomb) level ;;
  Variant.avg_dmg variant.

Fixpoint map_result {A B : Type} (f : A -> result B) (l : list A) : result (list B) :=
  match l with
  | [] => Ok []
  | a :: l' => b <- f a ;; bs <- map_result f l' ;; Ok (b :: bs)
  end.

(** [sorted(..., reverse=True)] on items already paired with their keys: a
    stable sort into descending key order that compares keys with [<]
    only. *)
Section Sorted.
Context {A : Type}.

Fixpoint insert_desc (x : A * PyFloat.float) (l : list (A * PyFloat.float))
  : list (A * PyFloat.float) :=
  match l with
  | [] => [x]
  | y :: l' =>
      if PyFloat.ltb (snd x) (snd y) then y :: insert_desc x l'
      else x :: l
  end.

Fixpoint sorted_desc (l : list (A * PyFloat.float)) : list (A * PyFloat.float) :=
  match l with
  | [] => []
  | x :: l' => insert_desc x (sorted_desc l')
  end.
End Sorted.

(** The second loop of [main]. *)
Fixpoint emit (l : list entry) : io unit :=
  match l with
  | [] => io_ret tt
  | (name, bomb, level) :: l' =>
      text <~ lift (parse_bomb name bomb level) ;;
      _ <~ print (PrintBlock text) ;;
      emit l'
  end.

(** [main], given the configured level, the formula book, the catalog and
    the search tokens that the readers and [sys.argv] supply. *)
Definition main (config_level : Z) (formulae : list string)
           (bombs : list (string * Bomb.t)) (search : list string) : io unit :=
  variants <~ scan config_level formulae search bombs ;;
  keys <~ lift (map_result sort_key variants) ;;
  emit (map fst (sorted_desc (combine variants keys))).

(** ** Construction from records *)

#[local] Set Warnings "-register-all".

(** The values of a loaded catalog: null, booleans, integers, strings, and
    mappings whose keys are strings or integers. *)
Inductive value : Type :=
| VNone
| VBool (b : bool)
| VInt (n : Z)
| VStr (s : string)
| VDict (d : list (string * value))
| VLevels (d : list (Z * value)).

Module Build.

(** The exceptions of construction. *)
Inductive error : Type :=
| TypeError
| KeyError
| AttributeError.

(** How a construction ends: with an exception, or with an object.  The
    classes do not check the types of their fields; [Done None] stands for
    an object that was built with a field value outside the declared type,
    which the typed records of this development cannot hold. *)
Inductive outcome (A : Type) : Type :=
| Fails (e : error)
| Done (a : option A).
Arguments Fails {A} e.
Arguments Done {A} a.

(** [d[k]] when present (a dict has one entry per key). *)
Fixpoint lookup (k : string) (d : list (string * value)) : option value :=
  match d with
  | [] => None
  | (k', v) :: d' => if String.eqb k' k then Some v else lookup k d'
  end.

(** The dict without the key [k], as [d.pop(k)] leaves it. *)
Definition remove (k : string) (d : list (string * value)) : list (string * value) :=
  filter (fun kv => negb (String.eqb (fst kv) k)) d.

(** Whether the class accepts the entries of [d] as its keywords: every
    key is a field, and the field without a default is given. *)
Definition accepts (fields : list string) (required : string)
           (d : list (string * value)) : bool :=
  forallb (fun kv => existsb (String.eqb (fst kv)) fields) d
  && match lookup required d with Some _ => true | None => false end.

Definition as_str (v : value) : option string :=
  match v with VStr s => Some s | _ => None end.
Definition as_int (v : value) : option Z :=
  match v with VInt n => Some n | _ => None end.
Definition as_bool (v : value) : option bool :=
  match v with VBool b => Some b | _ => None end.
Definition as_int_or_str (v : value) : option IntOrStr :=
  match v with VInt n => Some (Int n) | VStr s => Some (Str s) | _ => None end.

(** The value bound to a field: the one given, or the default. *)
Definition field {A : Type} (coerce : value -> option A) (default : A)
           (k : string) (d : list (string * value)) : option A :=
  match lookup k d with
  | Some v => coerce v
  | None => Some default
  end.

(** Constructions one after the other: the first exception wins. *)
Fixpoint build_all {A B : Type} (f : A -> outcome B) (l : list A) : outcome (list B) :=
  match l with
  | [] => Done (Some [])
  | x :: l' =>
      match f x with
      | Fails e => Fails e
      | Done b =>
          match build_all f l' with
          | Fails e => Fails e
          | Done bs =>
              Done match b, bs with
                   | Some b, Some bs => Some (b :: bs)
                   | _, _ => None
                   end
          end
      end
  end.

End Build.

Module Records.
Import Build.

Definition save_fields : list string :=
  ["type"; "basic"; "success"; "failure"; "critical"].

(** [Save.from_dict] *)
Definition Save_from_dict (data : value) : outcome Save.t :=
  match data with
  | VDict d =>
      if accepts save_fields "type" d then
        Done match field as_str EmptyString "type" d,
                   field as_bool false "basic" d,
                   field as_str EmptyString "success" d,
                   field as_str EmptyString "failure" d,
                   field as_str EmptyString "critical" d with
             | Some type, Some basic, Some success, Some failure, Some critical =>
                 Some {| Save.type := type; Save.basic := basic;
                         Save.success := success; Save.failure := failure;
                         Save.critical := critical |}
             | _, _, _, _, _ => None
             end
      else Fails TypeError
  | _ => Fails TypeError
  end.

Definition variant_fields : list string :=
  ["level"; "bonus"; "damage"; "splash"; "persistent"].

(** [Variant.from_dict] *)
Definition Variant_from_dict (data : value) : outcome Variant.t :=
  match data with
  | VDict d =>
      if accepts variant_fields "level" d then
        Done match field as_str EmptyString "level" d,
                   field as_int 0 "bonus" d,
                   field as_int_or_str (Int 0) "damage" d,
                   field as_int 0 "splash" d,
                   field as_int_or_str (Int 0) "persistent" d with
             | Some level, Some bonus, Some damage, Some splash, Some persistent =>
                 Some {| Variant.level := level; Variant.bonus := bonus;
                         Variant.damage := damage; Variant.splash := splash;
                         Variant.persistent := persistent |}
             | _, _, _, _, _ => None
             end
      else Fails TypeError
  | _ => Fails TypeError
  end.

(** The dict comprehension of [Bomb.from_dict] over [levels.items()]. *)
Definition variants_of (levels : value) : outcome (list (Z * Variant.t)) :=
  match levels with
  | VLevels l =>
      build_all (fun kv => match Variant_from_dict (snd kv) with
                           | Fails e => Fails e
                           | Done v => Done (option_map (pair (fst kv)) v)
                           end) l
  | VDict l =>
      match build_all (fun kv => Variant_from_dict (snd kv)) l with
      | Fails e => Fails e
      | Done _ => Done match l with [] => Some [] | _ => None end
      end
  | _ => Fails AttributeError
  end.

Definition bomb_fields : list string := ["type"; "on_hit"; "on_crit"; "additional"].

(** [Bomb.from_dict]: the outcome, and the dict it was given as the call
    leaves it. *)
Definition Bomb_from_dict (data : value) : outcome Bomb.t * value :=
  match data with
  | VDict d =>
      match lookup "levels" d with
      | None => (Fails KeyError, data)
      | Some levels =>
          let d := remove "levels" d in
          match variants_of levels with
          | Fails e => (Fails e, VDict d)
          | Done variants =>
              let '(save, d) :=
                match lookup "save" d with
                | Some sv =>
                    (match Save_from_dict sv with
                     | Fails e => Fails e
                     | Done s => Done (option_map Some s)
                     end, remove "save" d)
                | None => (Done (Some None), d)
                end in
              match save with
              | Fails e => (Fails e, VDict d)
              | Done save =>
                  if accepts bomb_fields "type" d then
                    (Done match field as_str EmptyString "type" d, variants,
                                field as_str EmptyString "on_hit" d,
                                field as_str EmptyString "on_crit" d,
                                field as_str EmptyString "additional" d, save with
                          | Some type, Some levels, Some on_hit, Some on_crit,
                            Some additional, Some save =>
                              Some {| Bomb.type := type; Bomb.levels := levels;
                                      Bomb.on_hit := on_hit; Bomb.on_crit := on_crit;
                                      Bomb.additional := additional; Bomb.save := save |}
                          | _, _, _, _, _, _ => None
                          end, VDict d)
                  else (Fails TypeError, VDict d)
              end
          end
      end
  | VLevels _ => (Fails KeyError, data)
  | _ => (Fails AttributeError, data)
  end.

(** The loop of [read_bombs] over the loaded catalog. *)
Definition read_bombs (data : list (string * value)) : outcome (list (string * Bomb.t)) :=
  build_all (fun kv => match fst (Bomb_from_dict (snd kv)) with
                       | Fails e => Fails e
                       | Done b => Done (option_map (pair (fst kv)) b)
                       end) data.

End Records.

(** ** The formula book *)

(** The characters at which [str.splitlines] ends a line. *)
Definition is_linebreak (a : ascii) : bool :=
  let n := nat_of_ascii a in
  ((10 <=? n)%nat && (n <=? 13)%nat) || ((28 <=? n)%nat && (n <=? 30)%nat)
  || (n =? 133)%nat.

(** [s.splitlines()]: the lines without their line breaks; a carriage
    return followed by a line feed is one break, and the text after the
    last break is a line only when it is not empty.  [after_cr] tells that
    the previous character was a carriage return. *)
Fixpoint splitlines_from (after_cr : bool) (s : string) : list string :=
  match s with
  | EmptyString => []
  | String a s' =>
      if after_cr && Ascii.eqb a (ascii_of_nat 10) then splitlines_from false s'
      else if is_linebreak a then
        EmptyString :: splitlines_from (Ascii.eqb a (ascii_of_nat 13)) s'
      else match splitlines_from false s' with
           | line :: lines => String a line :: lines
           | [] => [String a EmptyString]
           end
  end.

Definition splitlines (s : string) : list string := splitlines_from false s.

(** [[line for line in lines if line[0] != "#"]] *)
Fixpoint keep_formulae (lines : list string) : result (list string) :=
  match lines with
  | [] => Ok []
  | line :: lines' =>
      match line with
      | EmptyString => Raise IndexError
      | String c _ =>
          kept <- keep_formulae lines' ;;
          Ok (if negb (Ascii.eqb c "#") then line :: kept else kept)
      end
  end.

(** [read_formulae], given the text that [formulas.read()] returns. *)
Definition read_formulae (content : string) : result (list string) :=
  keep_formulae (splitlines content).

(** ** Vocabulary of the properties *)




(** Keys in strictly ascending order (so without repetition). *)
Definition ascending (keys : list Z) : Prop := StronglySorted Z.lt keys.

(** The names and the blocks of a trace, each in order. *)
Fixpoint names_of (out : list event) : list string :=
  match out with
  | [] => []
  | PrintName n :: out' => n :: names_of out'
  | PrintBlock _ :: out' => names_of out'
  end.

Fixpoint blocks_of (out : list event) : list string :=
  match out with
  | [] => []
  | PrintName _ :: out' => blocks_of out'
  | PrintBlock t :: out' => t :: blocks_of out'
  end.

(** [name in formulae] *)
Definition known (formulae : list string) (name : string) : bool :=
  existsb (String.eqb name) formulae.

(** The names printed, and the entries kept, when no token is empty. *)
Definition printed_names (formulae search : list string)
           (bombs : list (string * Bomb.t)) : list string :=
  map fst (filter (fun nb => forallb (Bomb.token_ok (snd nb)) search
                             && negb (known formulae (fst nb))) bombs).

Definition kept (config_level : Z) (formulae search : list string)
           (bombs : list (string * Bomb.t)) : list entry :=
  flat_map (fun nb =>
              let version := select_level (map fst (Bomb.levels (snd nb))) config_level 0 in
              if forallb (Bomb.token_ok (snd nb)) search && known formulae (fst nb)
                 && negb (version =? 0)
              then [(fst nb, snd nb, version)] else []) bombs.

(** [parse_bomb] applied to an entry of [variants]. *)
Definition render (x : entry) : result string :=
  let '(name, bomb, level) := x in parse_bomb name bomb level.

(** A dice text split into exactly two integer parts around the letter
    [d], when it has that shape. *)
Definition dice_parts (s : string) : option (Z * Z) :=
  match PyStr.split "d" s with
  | [count; damage] =>
      match PyStr.to_int count, PyStr.to_int damage with
      | Some c, Some d => Some (c, d)
      | _, _ => None
      end
  | _ => None
  end.

(** A string-valued field that does not have the dice shape. *)
Definition malformed (v : IntOrStr) : Prop :=
  exists s, v = Str s /\ dice_parts s = None.





(** The first half of [avg_dmg]: what the code adds up in [total] before
    overwriting it.  It matters only through the exception it may raise. *)
Definition first_half (v : Variant.t) : result number :=
  match Variant.damage v with
  | Int n => number_add (I (Variant.splash v)) (I n)
  | Str s => x <- Variant.dice_average s ;; number_add (I (Variant.splash v)) (F x)
  end.

(** The second half: the persistent magnitude times [3.24]. *)
Definition second_half (v : Variant.t) : result PyFloat.float :=
  persist <- match Variant.persistent v with
             | Int p => Ok (I (p + Variant.splash v))
             | Str s => x <- Variant.dice_average s ;; Ok (F x)
             end ;;
  number_mul_float persist PyFloat.lit_3_24.

(** An entry whose level is a key of its item. *)
Definition valid_entry (x : entry) : Prop :=
  let '(_, bomb, level) := x in In level (map fst (Bomb.levels bomb)).

(** A float that is zero or above it. *)
Definition not_negative (x : PyFloat.float) : bool :=
  match x with
  | S754_zero _ => true
  | S754_finite s _ _ => negb s
  | S754_infinity s => negb s
  | S754_nan => false
  end.

(** How often the character [c] occurs in [s]. *)
Fixpoint count_char (c : ascii) (s : string) : nat :=
  match s with
  | EmptyString => O
  | String a s' => if Ascii.eqb a c then S (count_char c s') else count_char c s'
  end.

(** A text without a line-break character. *)
Fixpoint no_linebreak (s : string) : bool :=
  match s with
  | EmptyString => true
  | String a s' => negb (is_linebreak a) && no_linebreak s'
  end.

(** A line of the formula book that names an item. *)
Definition is_name (s : string) : bool :=
  match s with
  | EmptyString => false
  | String c _ => negb (Ascii.eqb c "#")
  end.

(** ** Example data *)

(** The catalog item of the end-to-end example. *)
Definition acid_flask : Bomb.t :=
  {| Bomb.type := "acid";
     Bomb.levels := [(1, {| Variant.level := "lesser"; Variant.bonus := 0;
                            Variant.damage := Str "1d6"; Variant.splash := 0;
                            Variant.persistent := Str "1d6" |})];
     Bomb.on_hit := EmptyString; Bomb.on_crit := EmptyString; Bomb.additional := EmptyString;
     Bomb.save := None |}.

(** A tier with the given flat fields. *)
Definition flat_tier (label : string) (damage splash persistent : Z) : Variant.t :=
  {| Variant.level := label; Variant.bonus := 0; Variant.damage := Int damage;
     Variant.splash := splash; Variant.persistent := Int persistent |}.

(** An item with tiers at levels 1, 3 and 6, and nothing else. *)
Definition three_tiers (type : string) (p1 p3 p6 : Z) : Bomb.t :=
  {| Bomb.type := type;
     Bomb.levels := [(1, flat_tier "lesser" 0 0 p1);
                     (3, flat_tier "moderate" 0 0 p3);
                     (6, flat_tier "greater" 0 0 p6)];
     Bomb.on_hit := EmptyString; Bomb.on_crit := EmptyString; Bomb.additional := EmptyString;
     Bomb.save := None |}.


(** * Properties *)

(** ** The built-in operations on concrete values *)

Module Checks.
Import PyStr PyFloat.

Example int_grouped : to_int " 1_000 " = Some 1000.
Proof. reflexivity. Qed.

Example int_double_underscore : to_int "1__0" = None.
Proof. reflexivity. Qed.

Example int_signs : to_int "-0" = Some 0 /\ to_int "+7" = Some 7 /\ to_int "+" = None.
Proof. repeat split. Qed.

Example int_inner_space : to_int "1 2" = None /\ to_int "- 1" = None.
Proof. repeat split. Qed.

Example split_twice : split "d" "1dd6" = ["1"; EmptyString; "6"].
Proof. reflexivity. Qed.

Example split_none : split "d" "abc" = ["abc"].
Proof. reflexivity. Qed.

Example title_words : title "o'neil mc3x aBC" = "O'Neil Mc3X Abc".
Proof. reflexivity. Qed.

Example contains_empty : contains EmptyString EmptyString = true /\ contains "fire" "fir" = false.
Proof. repeat split. Qed.

Example literal_3_24 : lit_3_24 = S754_finite false 7295831396340204 (-51).
Proof. reflexivity. Qed.

Example repr_third : repr (round_ratio 1 3) = "0.3333333333333333".
Proof. vm_compute. reflexivity. Qed.

Example repr_exponent :
  repr (round_ratio (10 ^ 16) 1) = "1e+16"
  /\ repr (round_ratio (10 ^ 15) 1) = "1000000000000000.0"
  /\ repr (round_ratio 1 100000) = "1e-05"
  /\ repr (round_ratio 1 10000) = "0.0001".
Proof. repeat split; vm_compute; reflexivity. Qed.

Example repr_product :
  repr (mul (round_ratio 1 10) (round_ratio 3 1)) = "0.30000000000000004".
Proof. vm_compute. reflexivity. Qed.

Example halve_largest :
  int_truediv (2 ^ 1025 - 2 ^ 971 - 1) 2 = Ok (S754_finite false 9007199254740991 971)
  /\ int_truediv (2 ^ 1025 - 2 ^ 971) 2 = Raise OverflowError.
Proof. split; vm_compute; reflexivity. Qed.

Example multiply_largest :
  int_mul (2 ^ 1024 - 2 ^ 970 - 1) lit_3_24 = Ok (S754_infinity false)
  /\ int_mul (2 ^ 1024 - 2 ^ 970) lit_3_24 = Raise OverflowError.
Proof. split; vm_compute; reflexivity. Qed.

End Checks.

(** ** Decimal text of integers *)

Module PyStrFacts.
Import PyStr.
















End PyStrFacts.

(** ** Floats: rounding, range and order *)

Module PyFloatFacts.
Import PyFloat.

(** *** Shifting a mantissa right *)

Lemma iter_pos_nat {A : Type} (f : A -> A) (p : positive) (x : A) :
  iter_pos f p x = Nat.iter (Pos.to_nat p) f x.
Proof.
  revert x; induction p as [p IH|p IH|]; intros x; cbn [iter_pos].
  - rewrite !IH, Pos2Nat.inj_xI. 
    replace (S (2 * Pos.to_nat p)) with (Pos.to_nat p + (Pos.to_nat p + 1))%nat by lia.
    rewrite !Nat.iter_add. reflexivity.
  - rewrite !IH, Pos2Nat.inj_xO.
    replace (2 * Pos.to_nat p)%nat with (Pos.to_nat p + Pos.to_nat p)%nat by lia.
    rewrite Nat.iter_add. reflexivity.
  - reflexivity.
Qed.

Lemma shr_1_m (r : shr_record) :
  0 <= shr_m r -> shr_m (shr_1 r) = shr_m r / 2.
Proof.
  destruct r as [m b s]; cbn [shr_m]. intros Hm.
  destruct m as [|[p|p|]|p]; cbn [shr_1 shr_m]; try reflexivity; try lia.
  - apply Z.div_unique with (r := 1); lia.
  - apply Z.div_unique with (r := 0); lia.
Qed.

Lemma shr_iter_m (n : nat) (r : shr_record) :
  0 <= shr_m r -> shr_m (Nat.iter n shr_1 r) = shr_m r / 2 ^ Z.of_nat n.
Proof.
  intros Hm. induction n as [|n IH].
  - simpl. now rewrite Z.div_1_r.
  - rewrite Nat2Z.inj_succ, Z.pow_succ_r by lia.
    simpl Nat.iter. rewrite shr_1_m.
    + rewrite IH. rewrite Z.div_div by lia. f_equal. lia.
    + rewrite IH. apply Z.div_pos; lia.
Qed.

Lemma shr_m_spec (r : shr_record) (e n : Z) :
  0 <= shr_m r ->
  shr_m (fst (shr r e n)) = shr_m r / 2 ^ Z.max 0 n /\ snd (shr r e n) = e + Z.max 0 n.
Proof.
  intros Hm. destruct n as [|p|p]; simpl.
  - rewrite Z.div_1_r. split; lia.
  - rewrite iter_pos_nat, shr_iter_m by assumption.
    rewrite positive_nat_Z. split; [reflexivity | lia].
  - rewrite Z.div_1_r. split; lia.
Qed.

Lemma shr_record_of_loc_m (m : Z) (l : location) : shr_m (shr_record_of_loc m l) = m.
Proof. destruct l as [|[]]; reflexivity. Qed.

(** *** Number of bits *)

Lemma digits2_size (p : positive) : digits2_pos p = Pos.size p.
Proof. induction p; simpl; congruence. Qed.

Lemma Zdigits2_nonneg (m : Z) : 0 <= Zdigits2 m.
Proof. destruct m; simpl; lia. Qed.

Lemma Zdigits2_gt (m : Z) : 0 <= m -> m < 2 ^ Zdigits2 m.
Proof.
  destruct m as [|p|p]; cbn [Zdigits2]; try lia. intros _.
  rewrite digits2_size. pose proof (Pos.size_gt p) as H.
  apply Pos2Z.pos_lt_pos in H. now rewrite Pos2Z.inj_pow in H.
Qed.

Lemma Zdigits2_le (m k : Z) : 0 <= m -> 0 <= k -> m < 2 ^ k -> Zdigits2 m <= k.
Proof.
  destruct m as [|p|p]; cbn [Zdigits2]; try lia. intros _ Hk Hlt.
  rewrite digits2_size. pose proof (Pos.size_le p) as H.
  apply Pos2Z.pos_le_pos in H. rewrite Pos2Z.inj_pow in H.
  destruct (Z_le_gt_dec (Zpos (Pos.size p)) k) as [|Hgt]; [assumption|exfalso].
  assert (H2 : 2 ^ Zpos (Pos.size p) <= 2 * Zpos p).
  { exact H. }
  assert (H3 : 2 ^ (k + 1) <= 2 ^ Zpos (Pos.size p)) by (apply Z.pow_le_mono_r; lia).
  rewrite Z.pow_add_r in H3 by lia. lia.
Qed.

(** *** Rounding never yields a NaN, and stays finite below [2^1023] *)

Lemma finite_not_nan (x : float) : finite x = true -> not_nan x = true.
Proof. destruct x; simpl; congruence. Qed.

Lemma round_nearest_even_bounds (m : Z) (l : location) :
  m <= round_nearest_even m l <= m + 1.
Proof.
  destruct l as [|[]]; simpl; try lia. destruct (Z.even m); lia.
Qed.




Section RoundAux.
Variables (sx : bool) (mx ex : Z) (lx : location).
Hypothesis mx_nonneg : 0 <= mx.

Let first := shr_fexp prec emax mx ex lx.
Let rounded := round_nearest_even (shr_m (fst first)) (loc_of_shr_record (fst first)).
Let second := shr_fexp prec emax rounded (snd first) loc_Exact.

Lemma binary_round_aux_eq :
  binary_round_aux prec emax sx mx ex lx =
  match shr_m (fst second) with
  | Z0 => S754_zero sx
  | Zpos m => if snd second <=? emax - prec then S754_finite sx m (snd second)
              else S754_infinity sx
  | Zneg _ => S754_nan
  end.
Proof.
  unfold binary_round_aux, second, rounded, first.
  destruct (shr_fexp prec emax mx ex lx) as [mrs' e'].
  cbn [fst snd].
  destruct (shr_fexp prec emax _ e' loc_Exact) as [mrs'' e''].
  reflexivity.
Qed.

Lemma first_spec :
  shr_m (fst first) = mx / 2 ^ Z.max 0 (fexp prec emax (Zdigits2 mx + ex) - ex)
  /\ snd first = ex + Z.max 0 (fexp prec emax (Zdigits2 mx + ex) - ex).
Proof.
  unfold first, shr_fexp.
  pose proof (shr_m_spec (shr_record_of_loc mx lx) ex
                (fexp prec emax (Zdigits2 mx + ex) - ex)) as H.
  rewrite shr_record_of_loc_m in H. apply H. assumption.
Qed.

Lemma rounded_nonneg : 0 <= rounded.
Proof.
  unfold rounded. destruct first_spec as [H _].
  pose proof (round_nearest_even_bounds (shr_m (fst first)) (loc_of_shr_record (fst first))).
  assert (0 <= shr_m (fst first)).
  { rewrite H. apply Z.div_pos; [lia|]. apply Z.pow_pos_nonneg; lia. }
  lia.
Qed.

Lemma second_spec :
  shr_m (fst second)
  = rounded / 2 ^ Z.max 0 (fexp prec emax (Zdigits2 rounded + snd first) - snd first)
  /\ snd second
     = snd first + Z.max 0 (fexp prec emax (Zdigits2 rounded + snd first) - snd first).
Proof.
  unfold second, shr_fexp.
  pose proof (shr_m_spec (shr_record_of_loc rounded loc_Exact) (snd first)
                (fexp prec emax (Zdigits2 rounded + snd first) - snd first)) as H.
  rewrite shr_record_of_loc_m in H. apply H. apply rounded_nonneg.
Qed.

Lemma binary_round_aux_not_nan :
  not_nan (binary_round_aux prec emax sx mx ex lx) = true.
Proof.
  rewrite binary_round_aux_eq. destruct second_spec as [H _].
  assert (0 <= shr_m (fst second)).
  { rewrite H. apply Z.div_pos; [apply rounded_nonneg|]. apply Z.pow_pos_nonneg; lia. }
  destruct (shr_m (fst second)); [reflexivity | | lia].
  destruct (_ <=? _); reflexivity.
Qed.

End RoundAux.

(** *** Conversions of integers in range return *)



Lemma scaled_digits (m k : Z) :
  0 <= m -> 0 <= k -> Zdigits2 (m * 2 ^ k) <= Zdigits2 m + k.
Proof.
  intros Hm Hk. pose proof (Zdigits2_gt m Hm) as Hd.
  pose proof (Zdigits2_nonneg m) as Hd0.
  assert (Hp : 0 < 2 ^ k) by (apply Z.pow_pos_nonneg; lia).
  apply Zdigits2_le; [nia | lia |].
  rewrite Z.pow_add_r by lia. nia.
Qed.





Lemma div_core_spec (m1 m2 : positive) :
  let '(q, e, l) := SFdiv_core_binary prec emax (Zpos m1) 0 (Zpos m2) 0 in
  0 <= q /\ e <= 0 /\ Zdigits2 q + e <= Zdigits2 (Zpos m1).
Proof.
  unfold SFdiv_core_binary.
  set (e' := Z.min _ _). rewrite !Z.sub_0_l.
  assert (He : e' <= 0) by (unfold e'; lia).
  set (m' := match - e' with Zpos _ => Z.shiftl (Zpos m1) (- e') | Z0 => Zpos m1 | Zneg _ => 0 end).
  assert (Hm' : m' = Zpos m1 * 2 ^ (- e')).
  { unfold m'. destruct (- e') eqn:E; try lia.
    rewrite Z.shiftl_mul_pow2 by lia. reflexivity. }
  pose proof (Z_div_mod m' (Zpos m2) ltac:(lia)) as Hdiv.
  destruct (Z.div_eucl m' (Zpos m2)) as [q r]. destruct Hdiv as [Hq Hr].
  assert (Hp : 0 < 2 ^ (- e')) by (apply Z.pow_pos_nonneg; lia).
  assert (Hm0 : 0 <= m') by (rewrite Hm'; apply Z.mul_nonneg_nonneg; lia).
  assert (Hq0 : 0 <= q).
  { destruct (Z_le_gt_dec 0 q) as [|Hneg]; [assumption|exfalso].
    assert (Zpos m2 * q <= - Zpos m2) by nia. lia. }
  assert (Hqm : q <= m') by nia.
  repeat split; try assumption.
  pose proof (scaled_digits (Zpos m1) (- e') ltac:(lia) ltac:(lia)) as Hs.
  rewrite <- Hm' in Hs.
  assert (Zdigits2 q <= Zdigits2 m'); [| lia].
  apply Zdigits2_le; [assumption | apply Zdigits2_nonneg |].
  pose proof (Zdigits2_gt m' ltac:(lia)). lia.
Qed.



Lemma finite_or_finite (e : exn) (x y : float) :
  finite_or e x = Ok y -> finite y = true.
Proof. destruct x; simpl; intros [= <-]; reflexivity. Qed.

Lemma mul_not_nan (x y : float) :
  finite x = true -> finite y = true -> not_nan (mul x y) = true.
Proof.
  destruct x as [sx|sx| |sx mx ex], y as [sy|sy| |sy my ey]; simpl; try congruence.
  intros _ _. apply binary_round_aux_not_nan. lia.
Qed.

(** *** The order of floats *)








End PyFloatFacts.

(** ** Sorting by key *)

Module SortFacts.
Import PyFloat PyFloatFacts.

Section Keyed.
Context {A : Type}.
Let item : Type := (A * PyFloat.float)%type.

Lemma insert_desc_perm (x : item) (l : list item) :
  Permutation (insert_desc x l) (x :: l).
Proof.
  induction l as [|y l IH]; cbn [insert_desc]; [reflexivity|].
  destruct (PyFloat.ltb (snd x) (snd y)); [|reflexivity].
  rewrite IH. apply perm_swap.
Qed.

Lemma sorted_desc_perm (l : list item) : Permutation (sorted_desc l) l.
Proof.
  induction l as [|x l IH]; cbn [sorted_desc]; [reflexivity|].
  rewrite insert_desc_perm. now constructor.
Qed.




End Keyed.

End SortFacts.

(** ** The search matcher *)

Module MatchFacts.
Import Bomb.

Lemma match_loop_cons (self : Bomb.t) (c : ascii) (rest : string) (search : list string) :
  match_loop self true (String c rest :: search)
  = if token_ok self (String c rest) then match_loop self true search else Ok false.
Proof.
  cbn [match_loop token_ok]. destruct (Ascii.eqb c "-"); cbn [andb];
    [destruct (check self rest) | destruct (check self (String c rest))]; reflexivity.
Qed.

(** With no empty token the matcher returns, and says whether every token
    is satisfied. *)
Lemma match_nonempty (self : Bomb.t) (search : list string) :
  Forall (fun item => item <> EmptyString) search ->
  match_ self search = Ok (forallb (token_ok self) search).
Proof.
  unfold match_. induction 1 as [|item search Hne _ IH]; [reflexivity|].
  destruct item as [|c rest]; [congruence|].
  rewrite match_loop_cons. cbn [forallb].
  destruct (token_ok self (String c rest)); [exact IH | reflexivity].
Qed.

(** The matcher raises exactly when it reaches an empty token, that is,
    when every token before the first empty one is satisfied. *)
Lemma match_raises_iff (self : Bomb.t) (search : list string) :
  raises (match_ self search) <->
  exists before after,
    search = (before ++ EmptyString :: after)%list
    /\ Forall (fun item => item <> EmptyString) before
    /\ forallb (token_ok self) before = true.
Proof.
  unfold match_. induction search as [|item search IH].
  - split.
    + intros [e He]. discriminate.
    + intros (before & after & E & _). destruct before; discriminate.
  - destruct item as [|c rest].
    + split; [intros _ | intros _; now exists IndexError].
      exists [], search. repeat split; constructor.
    + rewrite match_loop_cons. split.
      * intros Hr. destruct (token_ok self (String c rest)) eqn:Et.
        -- apply IH in Hr as (before & after & -> & Hne & Hall).
           exists (String c rest :: before), after. repeat split.
           ++ constructor; [discriminate | assumption].
           ++ cbn [forallb]. now rewrite Et, Hall.
        -- destruct Hr as [e He]. discriminate.
      * intros (before & after & E & Hne & Hall).
        destruct before as [|item before]; [discriminate|].
        injection E as <- ->. cbn [forallb] in Hall.
        apply andb_prop in Hall as [Et Hall]. rewrite Et.
        apply IH. exists before, after. repeat split; [now inversion Hne | assumption].
Qed.

End MatchFacts.

(** ** The level selector *)

Module SelectFacts.

Lemma select_level_below (keys : list Z) (ceiling version : Z) :
  Forall (fun k => ceiling < k) keys -> select_level keys ceiling version = version.
Proof.
  destruct 1 as [|k keys Hk _]; cbn [select_level]; [reflexivity|].
  apply Z.gtb_lt in Hk. now rewrite Hk.
Qed.

(** The loop returns the greatest key not above the ceiling, or the start
    value when the first key is already above it. *)
Lemma select_level_spec (keys : list Z) (ceiling version : Z) :
  ascending keys ->
  let v := select_level keys ceiling version in
  (v = version /\ Forall (fun k => ceiling < k) keys)
  \/ (In v keys /\ v <= ceiling /\ Forall (fun k => k <= ceiling -> k <= v) keys).
Proof.
  intros Hs. revert version. induction Hs as [|k keys Hs IH Hk]; intros version; cbn [select_level].
  - left. split; [reflexivity | constructor].
  - destruct (k >? ceiling) eqn:E.
    + left. split; [reflexivity|]. apply Z.gtb_lt in E.
      constructor; [assumption|]. rewrite Forall_forall in *. intros k' Hk'.
      specialize (Hk k' Hk'). lia.
    + right. assert (Hle : k <= ceiling) by (rewrite Z.gtb_ltb in E; apply Z.ltb_ge in E; exact E).
      destruct (IH k) as [[Ev Hall] | (Hin & Hv & Hall)].
      * rewrite Ev. split; [now left|]. split; [assumption|].
        constructor; [lia|]. rewrite Forall_forall in *. intros k' Hk' Hc.
        specialize (Hall k' Hk'). lia.
      * split; [now right|]. split; [assumption|].
        constructor; [|assumption]. intros _.
        rewrite Forall_forall in Hk. specialize (Hk _ Hin). lia.
Qed.

End SelectFacts.

(** ** The scan and the final loop *)

Module MainFacts.
Import Bomb MatchFacts.

Lemma io_bind_ret {A B : Type} (a : A) (k : A -> io B) : io_bind (io_ret a) k = k a.
Proof. unfold io_bind, io_ret. now destruct (k a). Qed.

Lemma io_bind_lift_ok {A B : Type} (a : A) (k : A -> io B) : io_bind (lift (Ok a)) k = k a.
Proof. apply io_bind_ret. Qed.

Lemma io_bind_lift_raise {A B : Type} (e : exn) (k : A -> io B) :
  io_bind (lift (Raise e)) k = ([], Raise e).
Proof. reflexivity. Qed.

Lemma io_bind_print {B : Type} (e : event) (k : unit -> io B) :
  io_bind (print e) k = (e :: fst (k tt), snd (k tt)).
Proof. unfold io_bind, print. now destruct (k tt). Qed.

Lemma io_bind_out {A B : Type} (out : list event) (a : A) (k : A -> io B) :
  io_bind (out, Ok a) k = ((out ++ fst (k a))%list, snd (k a)).
Proof. unfold io_bind. now destruct (k a). Qed.

Lemma names_of_names (names : list string) (out : list event) :
  names_of (map PrintName names ++ out) = (names ++ names_of out)%list.
Proof. induction names; simpl; congruence. Qed.

Lemma blocks_of_names (names : list string) (out : list event) :
  blocks_of (map PrintName names ++ out) = blocks_of out.
Proof. induction names; simpl; congruence. Qed.

Lemma names_of_blocks (texts : list string) : names_of (map PrintBlock texts) = [].
Proof. induction texts; simpl; congruence. Qed.

Lemma blocks_of_blocks (texts : list string) : blocks_of (map PrintBlock texts) = texts.
Proof. induction texts; simpl; congruence. Qed.

(** The scan prints names only. *)
Lemma scan_prints_names (config_level : Z) (formulae search : list string)
      (bombs : list (string * Bomb.t)) :
  exists names, fst (scan config_level formulae search bombs) = map PrintName names.
Proof.
  induction bombs as [|[name bomb] bombs [names IH]]; cbn [scan].
  - now exists [].
  - set (skip := match search with
                 | [] => io_ret false
                 | _ => m <~ lift (Bomb.match_ bomb search) ;; io_ret (negb m)
                 end).
    assert (Hskip : (exists b, skip = io_ret b) \/ (exists e, skip = ([], Raise e))).
    { unfold skip. destruct search; [left; now exists false|].
      destruct (Bomb.match_ bomb _) as [m|e].
      - left. exists (negb m). now rewrite io_bind_lift_ok.
      - right. now exists e. }
    destruct Hskip as [[b ->] | [e ->]]; [| now exists []].
    rewrite io_bind_ret. destruct b; [now exists names|].
    destruct (negb (existsb (String.eqb name) formulae)).
    + rewrite io_bind_print. exists (name :: names). cbn [fst map]. now rewrite IH.
    + destruct (scan config_level formulae search bombs) as [out [vs|e]];
        cbn [fst] in IH; subst out.
      * rewrite io_bind_out. exists names. cbn [fst io_ret]. now rewrite app_nil_r.
      * now exists names.
Qed.

Lemma scan_spec (config_level : Z) (formulae search : list string)
      (bombs : list (string * Bomb.t)) :
  Forall (fun item => item <> EmptyString) search ->
  scan config_level formulae search bombs
  = (map PrintName (printed_names formulae search bombs),
     Ok (kept config_level formulae search bombs)).
Proof.
  intros Hne. induction bombs as [|[name bomb] bombs IH]; [reflexivity|].
  cbn [scan].
  assert (Hskip : match search with
                  | [] => io_ret false
                  | _ => m <~ lift (Bomb.match_ bomb search) ;; io_ret (negb m)
                  end = io_ret (negb (forallb (token_ok bomb) search))).
  { destruct search as [|item search]; [reflexivity|].
    rewrite (match_nonempty bomb _ Hne). now rewrite io_bind_lift_ok. }
  rewrite Hskip, io_bind_ret. clear Hskip.
  unfold printed_names, kept in *. cbn [filter flat_map fst snd map].
  fold (known formulae name).
  destruct (forallb (token_ok bomb) search); cbn [negb andb]; [|exact IH].
  destruct (known formulae name); cbn [negb andb].
  - rewrite IH, io_bind_out. cbn [fst snd io_ret]. rewrite app_nil_r.
    destruct (select_level _ _ _ =? 0); reflexivity.
  - rewrite io_bind_print, IH. reflexivity.
Qed.

(** An entry whose sort key could be computed can be rendered. *)
Lemma render_returns (x : entry) (k : PyFloat.float) :
  sort_key x = Ok k -> exists text, render x = Ok text.
Proof.
  destruct x as [[name bomb] level]. unfold sort_key, render, parse_bomb, Bomb.variant_str.
  destruct (getitem (Bomb.levels bomb) level) as [variant|e]; cbn [bind]; [|discriminate].
  intros ->. cbn [bind]. eexists. reflexivity.
Qed.

Lemma emit_spec (l : list entry) :
  Forall (fun x => exists k, sort_key x = Ok k) l ->
  exists texts, emit l = (map PrintBlock texts, Ok tt)
                /\ Forall2 (fun x text => render x = Ok text) l texts.
Proof.
  induction 1 as [|x l [k Hk] _ (texts & E & Hall)].
  - exists []. split; [reflexivity | constructor].
  - destruct (render_returns x k Hk) as [text Ht].
    exists (text :: texts). split; [| now constructor].
    destruct x as [[name bomb] level]. cbn [emit]. unfold render in Ht.
    rewrite Ht, io_bind_lift_ok, io_bind_print, E. reflexivity.
Qed.

(** The final loop prints blocks only, whether or not it completes. *)
Lemma emit_prints_blocks (l : list entry) :
  exists texts, fst (emit l) = map PrintBlock texts.
Proof.
  induction l as [|[[name bomb] level] l [texts IH]]; cbn [emit].
  - now exists [].
  - destruct (parse_bomb name bomb level) as [text|e].
    + rewrite io_bind_lift_ok, io_bind_print. exists (text :: texts).
      cbn [fst map]. now rewrite IH.
    + now exists [].
Qed.

Lemma map_result_spec {A B : Type} (f : A -> result B) (l : list A) (bs : list B) :
  map_result f l = Ok bs -> Forall2 (fun a b => f a = Ok b) l bs.
Proof.
  revert bs. induction l as [|a l IH]; cbn [map_result]; intros bs.
  - intros [= <-]. constructor.
  - destruct (f a) as [b|e] eqn:Ea; cbn [bind]; [|discriminate].
    destruct (map_result f l) as [bs'|e]; cbn [bind]; [|discriminate].
    intros [= <-]. constructor; auto.
Qed.

Lemma combine_keys {A B : Type} (f : A -> result B) (l : list A) (bs : list B) :
  Forall2 (fun a b => f a = Ok b) l bs ->
  Forall (fun e => f (fst e) = Ok (snd e)) (combine l bs).
Proof. induction 1; cbn [combine]; constructor; auto. Qed.

End MainFacts.

(** ** The damage estimator *)

Module VariantFacts.
Import Variant PyFloat PyFloatFacts.

Lemma dice_average_spec (s : string) :
  dice_average s = match dice_parts s with
                   | Some (c, d) => int_truediv (c * d) 2
                   | None => Raise ValueError
                   end.
Proof.
  unfold dice_average, dice_parts, int.
  destruct (PyStr.split "d" s) as [|a [|b [|? ?]]]; try reflexivity.
  destruct (PyStr.to_int a), (PyStr.to_int b); reflexivity.
Qed.

Lemma of_int_cases (n : Z) :
  (exists x, of_int n = Ok x /\ finite x = true) \/ of_int n = Raise OverflowError.
Proof.
  unfold of_int. destruct (binary_normalize prec emax n 0 false); cbn [finite_or]; eauto.
Qed.

Lemma halve_cases (a : Z) :
  (exists x, int_truediv a 2 = Ok x /\ finite x = true)
  \/ int_truediv a 2 = Raise OverflowError.
Proof.
  unfold int_truediv. destruct (round_ratio a 2); cbn [finite_or]; eauto.
Qed.

Lemma avg_dmg_halves (v : Variant.t) :
  avg_dmg v = (_ <- first_half v ;; second_half v).
Proof. reflexivity. Qed.

Lemma first_half_int (v : Variant.t) (n : Z) :
  damage v = Int n -> first_half v = Ok (I (splash v + n)).
Proof. unfold first_half. now intros ->. Qed.

Lemma second_half_int (v : Variant.t) (p : Z) :
  persistent v = Int p -> second_half v = int_mul (p + splash v) lit_3_24.
Proof. unfold second_half. now intros ->. Qed.

Lemma first_half_cases (v : Variant.t) :
  (exists t, first_half v = Ok t)
  \/ first_half v = Raise OverflowError
  \/ (first_half v = Raise ValueError /\ malformed (damage v)).
Proof.
  unfold first_half. destruct (damage v) as [n|s]; [left; eexists; reflexivity|].
  rewrite dice_average_spec. destruct (dice_parts s) as [[c d]|] eqn:E.
  - destruct (halve_cases (c * d)) as [(x & -> & _) | ->]; cbn [bind]; [|auto].
    unfold number_add, int_add.
    destruct (of_int_cases (splash v)) as [(y & -> & _) | ->]; cbn [bind]; eauto.
  - right; right. split; [reflexivity | now exists s].
Qed.

Lemma second_half_cases (v : Variant.t) :
  (exists x, second_half v = Ok x /\ not_nan x = true)
  \/ second_half v = Raise OverflowError
  \/ (second_half v = Raise ValueError /\ malformed (persistent v)).
Proof.
  unfold second_half. destruct (persistent v) as [p|s]; cbn [bind].
  - unfold number_mul_float, int_mul.
    destruct (of_int_cases (p + splash v)) as [(y & -> & Hy) | ->]; cbn [bind]; [|auto].
    left. eexists. split; [reflexivity|]. now apply mul_not_nan.
  - rewrite dice_average_spec. destruct (dice_parts s) as [[c d]|] eqn:E.
    + destruct (halve_cases (c * d)) as [(x & -> & Hx) | ->]; cbn [bind]; [|auto].
      left. eexists. split; [reflexivity|]. now apply mul_not_nan.
    + right; right. split; [reflexivity | now exists s].
Qed.




End VariantFacts.

(** ** The trace of the program *)

Module MainTrace.
Import MainFacts.

(** The trace of [main]: the names of the scan, then blocks. *)
Lemma main_trace (config_level : Z) (formulae search : list string)
      (bombs : list (string * Bomb.t)) :
  exists names texts,
    fst (scan config_level formulae search bombs) = map PrintName names
    /\ fst (main config_level formulae bombs search)
       = (map PrintName names ++ map PrintBlock texts)%list.
Proof.
  destruct (scan_prints_names config_level formulae search bombs) as [names Hn].
  exists names. unfold main.
  destruct (scan config_level formulae search bombs) as [out [vs|e]]; cbn [fst] in Hn; subst out.
  - rewrite io_bind_out. cbn [fst].
    destruct (map_result sort_key vs) as [ks|e].
    + rewrite io_bind_lift_ok.
      destruct (emit_prints_blocks (map fst (sorted_desc (combine vs ks)))) as [texts ->].
      exists texts. split; reflexivity.
    + exists []. split; reflexivity.
  - exists []. cbn [io_bind fst map]. rewrite app_nil_r. split; reflexivity.
Qed.

End MainTrace.

(** * The claims *)

Import PyFloat PyFloatFacts VariantFacts MatchFacts SelectFacts SortFacts MainFacts MainTrace.

(** C1, as amended.  For a variant whose [persistent] is the integer 0 the
    score is [splash * 3.24]: with an integer [damage] the estimator
    returns exactly that, whatever [damage] is, and with any [damage] at
    all it returns nothing else.  The score is [0.0] when [splash] is 0 as
    well. *)
Theorem C1_zero_persistent_scores_splash (v : Variant.t) :
  Variant.persistent v = Int 0 ->
  (forall n, Variant.damage v = Int n ->
             Variant.avg_dmg v = int_mul (Variant.splash v) lit_3_24)
  /\ (forall x, Variant.avg_dmg v = Ok x -> int_mul (Variant.splash v) lit_3_24 = Ok x)
  /\ (Variant.splash v = 0 ->
      forall n, Variant.damage v = Int n -> Variant.avg_dmg v = Ok (S754_zero false)).
Proof.
  intros Hp. rewrite avg_dmg_halves, (second_half_int v 0 Hp). cbn [Z.add].
  repeat split.
  - intros n Hn. now rewrite (first_half_int v n Hn).
  - intros x. destruct (first_half v); cbn [bind]; [auto | discriminate].
  - intros Hs n Hn. rewrite (first_half_int v n Hn), Hs. reflexivity.
Qed.

Lemma C1_witness :
  Variant.persistent (flat_tier "lesser" 7 0 0) = Int 0
  /\ Variant.avg_dmg (flat_tier "lesser" 7 0 0) = Ok (S754_zero false).
Proof.
  split; [reflexivity|].
  apply (C1_zero_persistent_scores_splash (flat_tier "lesser" 7 0 0) eq_refl)
    with (n := 7); reflexivity.
Defined.

(** C1 as stated fails: a variant with [persistent = 0] and [splash = 1]
    scores [3.24], which is not 0. *)
Lemma C1_counterexample :
  Variant.persistent (flat_tier "lesser" 0 1 0) = Int 0
  /\ Variant.avg_dmg (flat_tier "lesser" 0 1 0) = Ok lit_3_24
  /\ PyFloat.eqb lit_3_24 (S754_zero false) = false.
Proof. repeat split. Qed.


(** C3, as amended.  The end-to-end example prints one block; its header
    shows the score [9.72], the float [1 * 6 / 2 * 3.24], and the block is
    followed by an empty line. *)
Theorem C3_end_to_end :
  main 1 ["acid flask"] [("acid flask", acid_flask)] []
  = ([PrintBlock ("Acid Flask (Lesser) [1] (9.72 dmg)" ++ PyStr.nl
                  ++ "The bomb deals 1d6 acid damage, 1d6 persistent acid damage."
                  ++ PyStr.nl)],
     Ok tt)
  /\ stdout (fst (main 1 ["acid flask"] [("acid flask", acid_flask)] []))
     = "Acid Flask (Lesser) [1] (9.72 dmg)" ++ PyStr.nl
       ++ "The bomb deals 1d6 acid damage, 1d6 persistent acid damage."
       ++ PyStr.nl ++ PyStr.nl
  /\ sort_key ("acid flask", acid_flask, 1)
     = Ok (mul (round_ratio 3 1) lit_3_24).
Proof. repeat split; vm_compute; reflexivity. Qed.

(** C3 as stated fails: the header printed for the example does not show
    [10.8]. *)
Lemma C3_counterexample :
  main 1 ["acid flask"] [("acid flask", acid_flask)] []
  <> ([PrintBlock ("Acid Flask (Lesser) [1] (10.8 dmg)" ++ PyStr.nl
                   ++ "The bomb deals 1d6 acid damage, 1d6 persistent acid damage."
                   ++ PyStr.nl)],
      Ok tt).
Proof. vm_compute. intros H. discriminate H. Qed.

(** C4, as amended.  When no search token is empty, the names the program
    prints are those of the catalog items, in catalog order, that are not in
    the formula book and that satisfy every search token: an unknown item is
    reported by name when there are no tokens or when it matches them, and
    is skipped without a line when it does not match. *)
Theorem C4_unknown_names_after_filter (config_level : Z) (formulae search : list string)
        (bombs : list (string * Bomb.t)) :
  Forall (fun item => item <> EmptyString) search ->
  names_of (fst (main config_level formulae bombs search))
  = map fst (filter (fun nb => forallb (Bomb.token_ok (snd nb)) search
                               && negb (known formulae (fst nb))) bombs).
Proof.
  intros Hne.
  destruct (main_trace config_level formulae search bombs) as (names & texts & Hs & ->).
  rewrite (scan_spec config_level formulae search bombs Hne) in Hs. cbn [fst] in Hs.
  rewrite names_of_names, names_of_blocks, app_nil_r.
  fold (printed_names formulae search bombs).
  clear - Hs. revert names Hs. induction (printed_names formulae search bombs) as [|n l IH];
    intros [|n' names]; cbn [map]; try discriminate; [reflexivity|].
  intros [= -> E]. f_equal. now apply IH.
Qed.

Lemma C4_witness :
  Forall (fun item => item <> EmptyString) ["acid"]
  /\ names_of (fst (main 1 [] [("acid flask", acid_flask)] ["acid"])) = ["acid flask"].
Proof.
  assert (H : Forall (fun item => item <> EmptyString) ["acid"])
    by (repeat constructor; discriminate).
  split; [exact H|].
  rewrite (C4_unknown_names_after_filter 1 [] ["acid"] [("acid flask", acid_flask)] H).
  reflexivity.
Defined.

(** C4 as stated fails: with the search token ["fire"], the item
    ["acid flask"], which is not in the (empty) formula book, is not
    printed. *)
Lemma C4_counterexample :
  known [] "acid flask" = false
  /\ main 1 [] [("acid flask", acid_flask)] ["fire"] = ([], Ok tt).
Proof. split; reflexivity. Qed.

(** C5.  For tiers whose keys are positive and in ascending order, the
    level selector picks the greatest key not above the ceiling, and the
    scan keeps the item at that level; when every key is above the ceiling
    it picks none and the program prints nothing for the item.  For tiers
    at 1, 3 and 6: ceiling 4 selects 3, and ceiling 0 selects none. *)
Theorem C5_level_selector :
  (forall (name : string) (bomb : Bomb.t) (ceiling : Z),
      let keys := map fst (Bomb.levels bomb) in
      let version := select_level keys ceiling 0 in
      ascending keys -> Forall (fun k => 0 < k) keys ->
      ((exists k, In k keys /\ k <= ceiling) ->
       In version keys /\ version <= ceiling
       /\ (forall k, In k keys -> k <= ceiling -> k <= version)
       /\ scan ceiling [name] [] [(name, bomb)] = ([], Ok [(name, bomb, version)]))
      /\ ((forall k, In k keys -> ceiling < k) ->
          version = 0
          /\ scan ceiling [name] [] [(name, bomb)] = ([], Ok [])
          /\ main ceiling [name] [(name, bomb)] [] = ([], Ok tt)))
  /\ select_level [1; 3; 6] 4 0 = 3
  /\ select_level [1; 3; 6] 0 0 = 0.
Proof.
  split; [| split; reflexivity].
  intros name bomb ceiling keys version Hasc Hpos.
  assert (Hscan : scan ceiling [name] [] [(name, bomb)]
                  = ([], Ok (if negb (version =? 0) then [(name, bomb, version)] else []))).
  { cbn [scan existsb]. rewrite String.eqb_refl. reflexivity. }
  pose proof (select_level_spec keys ceiling 0 Hasc) as Hspec. cbv zeta in Hspec.
  fold version in Hspec. split.
  - intros (k & Hk & Hle).
    destruct Hspec as [[_ Hall] | (Hin & Hle' & Hall)].
    + rewrite Forall_forall in Hall. specialize (Hall k Hk). lia.
    + rewrite Forall_forall in Hall, Hpos. repeat split; auto.
      rewrite Hscan. specialize (Hpos _ Hin).
      destruct (Z.eqb_spec version 0); [lia | reflexivity].
  - intros Habove.
    assert (Hv : version = 0).
    { apply select_level_below. now apply Forall_forall. }
    repeat split; [assumption | now rewrite Hscan, Hv |].
    unfold main. rewrite Hscan, Hv. reflexivity.
Qed.

Lemma C5_witness :
  let bomb := three_tiers "acid" 1 2 3 in
  scan 4 ["acid flask"] [] [("acid flask", bomb)] = ([], Ok [("acid flask", bomb, 3)])
  /\ main 0 ["acid flask"] [("acid flask", bomb)] [] = ([], Ok tt).
Proof.
  intros bomb.
  assert (Hasc : ascending (map fst (Bomb.levels bomb)))
    by (repeat constructor; reflexivity).
  assert (Hpos : Forall (fun k => 0 < k) (map fst (Bomb.levels bomb)))
    by (repeat constructor; reflexivity).
  split.
  - apply (proj1 C5_level_selector "acid flask" bomb 4 Hasc Hpos).
    exists 3. split; [right; left; reflexivity | discriminate].
  - apply (proj1 C5_level_selector "acid flask" bomb 0 Hasc Hpos).
    intros k [<- | [<- | [<- | []]]]; reflexivity.
Defined.

(** C7.  With the single token ["-fire"] the matcher returns false for a
    bomb whose type contains ["fire"], and true for a bomb none of whose
    matched fields (type, on_hit, on_crit, additional, rendered save)
    contains it: the leading ['-'] is removed and the substring test is
    negated. *)
Theorem C7_negated_token :
  (forall bomb : Bomb.t,
      PyStr.contains "fire" (Bomb.type bomb) = true ->
      Bomb.match_ bomb ["-fire"] = Ok false)
  /\ (forall bomb : Bomb.t,
         PyStr.contains "fire" (Bomb.type bomb) = false ->
         PyStr.contains "fire" (Bomb.on_hit bomb) = false ->
         PyStr.contains "fire" (Bomb.on_crit bomb) = false ->
         PyStr.contains "fire" (Bomb.additional bomb) = false ->
         (forall sv, Bomb.save bomb = Some sv ->
                     PyStr.contains "fire" (Save.str sv) = false) ->
         Bomb.match_ bomb ["-fire"] = Ok true)
  /\ (forall (bomb : Bomb.t) (token : string),
         Bomb.match_ bomb [String "-" token] = Ok (negb (Bomb.check bomb token))).
Proof.
  assert (Hgen : forall (bomb : Bomb.t) (token : string),
             Bomb.match_ bomb [String "-" token] = Ok (negb (Bomb.check bomb token))).
  { intros bomb token. unfold Bomb.match_. cbn [Bomb.match_loop Ascii.eqb Bool.eqb andb].
    destruct (Bomb.check bomb token); reflexivity. }
  repeat split; [| | exact Hgen].
  - intros bomb Ht. rewrite Hgen. unfold Bomb.check. now rewrite Ht.
  - intros bomb Ht Hh Hc Ha Hs. rewrite Hgen. unfold Bomb.check.
    rewrite Ht, Hh, Hc, Ha. cbn [orb].
    destruct (Bomb.save bomb) as [sv|]; [now rewrite (Hs sv eq_refl) | reflexivity].
Qed.

Lemma C7_witness :
  Bomb.match_ (three_tiers "fire" 1 2 3) ["-fire"] = Ok false
  /\ Bomb.match_ acid_flask ["-fire"] = Ok true.
Proof.
  split.
  - apply (proj1 C7_negated_token). reflexivity.
  - apply (proj1 (proj2 C7_negated_token)); try reflexivity. discriminate.
Defined.

(** C9.  Every trace of the program is a run of names followed by a run
    of blocks: no block is printed before a name, whether the run
    completes or stops with an exception. *)
Theorem C9_names_before_blocks (config_level : Z) (formulae search : list string)
        (bombs : list (string * Bomb.t)) :
  let out := fst (main config_level formulae bombs search) in
  out = (map PrintName (names_of out) ++ map PrintBlock (blocks_of out))%list
  /\ names_of out = names_of (fst (scan config_level formulae search bombs)).
Proof.
  cbv zeta.
  destruct (main_trace config_level formulae search bombs) as (names & texts & -> & ->).
  rewrite names_of_names, names_of_blocks, blocks_of_names, blocks_of_blocks, app_nil_r.
  split; [reflexivity|].
  rewrite <- (app_nil_r (map PrintName names)).
  now rewrite names_of_names, app_nil_r.
Qed.

(** C10, as amended.  With no empty token the matcher returns a boolean.
    It raises exactly when it reaches an empty token, that is, when every
    token before the first empty one is satisfied; so it raises when the
    first token is empty, and returns false without raising when an earlier
    token fails. *)
Theorem C10_matcher_totality :
  (forall (bomb : Bomb.t) (search : list string),
      Forall (fun item => item <> EmptyString) search ->
      Bomb.match_ bomb search = Ok (forallb (Bomb.token_ok bomb) search))
  /\ (forall (bomb : Bomb.t) (search : list string),
         raises (Bomb.match_ bomb search) <->
         exists before after,
           search = (before ++ EmptyString :: after)%list
           /\ Forall (fun item => item <> EmptyString) before
           /\ forallb (Bomb.token_ok bomb) before = true)
  /\ (forall (bomb : Bomb.t) (after : list string),
         Bomb.match_ bomb (EmptyString :: after) = Raise IndexError).
Proof.
  repeat split.
  - apply match_nonempty.
  - apply match_raises_iff.
  - apply match_raises_iff.
Qed.

Lemma C10_witness :
  Forall (fun item => item <> EmptyString) ["acid"; "-fire"]
  /\ Bomb.match_ acid_flask ["acid"; "-fire"] = Ok true.
Proof.
  assert (H : Forall (fun item => item <> EmptyString) ["acid"; "-fire"])
    by (repeat constructor; discriminate).
  split; [exact H|].
  rewrite (proj1 C10_matcher_totality acid_flask ["acid"; "-fire"] H). reflexivity.
Defined.

(** C10 as stated fails: the token list made of ["fire"] and the empty
    string contains the empty string, and the matcher returns false on it
    for a bomb that does not match ["fire"]. *)
Lemma C10_counterexample :
  In EmptyString ["fire"; EmptyString]
  /\ Bomb.match_ acid_flask ["fire"; EmptyString] = Ok false.
Proof. split; [right; left; reflexivity | reflexivity]. Qed.







(** * Further properties of the code *)

(** ** More on the level selector *)

Module SelectMore.
Import SelectFacts.

Lemma select_level_prefix (before : list Z) (k : Z) (after : list Z) (ceiling version : Z) :
  Forall (fun x => x <= ceiling) before -> ceiling < k ->
  select_level (before ++ k :: after)%list ceiling version
  = select_level before ceiling version.
Proof.
  intros Hb Hk. revert version. induction Hb as [|x before Hx _ IH]; intros version.
  - cbn [Datatypes.app select_level]. apply Z.gtb_lt in Hk. now rewrite Hk.
  - cbn [Datatypes.app select_level]. destruct (x >? ceiling) eqn:E; [reflexivity | apply IH].
Qed.

Lemma last_cons_default (x : Z) (l : list Z) (d d' : Z) :
  last (x :: l) d = last (x :: l) d'.
Proof.
  revert x. induction l as [|y l IH]; intros x; [reflexivity|].
  change (last (y :: l) d = last (y :: l) d'). apply IH.
Qed.

Lemma select_level_all (keys : list Z) (ceiling version : Z) :
  Forall (fun x => x <= ceiling) keys ->
  select_level keys ceiling version = last keys version.
Proof.
  intros H. revert version. induction H as [|x keys Hx _ IH]; intros version; [reflexivity|].
  cbn [select_level]. assert (E : (x >? ceiling) = false).
  { rewrite Z.gtb_ltb. apply Z.ltb_ge. exact Hx. }
  rewrite E, IH. destruct keys as [|z keys]; [reflexivity|].
  change (last (x :: z :: keys) version) with (last (z :: keys) version).
  apply last_cons_default.
Qed.

Lemma select_level_in (keys : list Z) (ceiling version : Z) :
  select_level keys ceiling version = version
  \/ In (select_level keys ceiling version) keys.
Proof.
  revert version. induction keys as [|k keys IH]; intros version; cbn [select_level].
  - now left.
  - destruct (k >? ceiling); [now left|].
    right. destruct (IH k) as [-> | H]; [now left | now right].
Qed.

End SelectMore.

(** ** More on the search matcher *)

Module MatchMore.
Import Bomb MatchFacts.

Lemma match_raise_index (self : Bomb.t) (search : list string) (e : exn) :
  match_ self search = Raise e -> e = IndexError /\ In EmptyString search.
Proof.
  unfold match_. induction search as [|item search IH]; [discriminate|].
  destruct item as [|c rest].
  - intros [= <-]. split; [reflexivity | now left].
  - rewrite match_loop_cons. destruct (token_ok self (String c rest)); [|discriminate].
    intros H. destruct (IH H) as [-> Hin]. split; [reflexivity | now right].
Qed.

(** The matcher answers true exactly when no token is empty and every
    token is satisfied. *)
Lemma match_true_iff (self : Bomb.t) (search : list string) :
  match_ self search = Ok true <->
  Forall (fun item => item <> EmptyString) search
  /\ forallb (token_ok self) search = true.
Proof.
  split.
  - unfold match_. induction search as [|item search IH]; [now split|].
    destruct item as [|c rest]; [discriminate|].
    rewrite match_loop_cons. destruct (token_ok self (String c rest)) eqn:E; [|discriminate].
    intros H. destruct (IH H) as [Hne Hall]. split.
    + constructor; [discriminate | assumption].
    + cbn [forallb]. now rewrite E, Hall.
  - intros [Hne Hall]. now rewrite (match_nonempty self search Hne), Hall.
Qed.

Lemma forallb_perm {A : Type} (f : A -> bool) (l l' : list A) :
  Permutation l l' -> forallb f l = forallb f l'.
Proof.
  induction 1 as [| x l l' _ IH | x y l | l l' l'' _ IH1 _ IH2]; cbn [forallb].
  - reflexivity.
  - now rewrite IH.
  - destruct (f x), (f y); reflexivity.
  - now rewrite IH1.
Qed.

Lemma forallb_in_false {A : Type} (f : A -> bool) (l : list A) (x : A) :
  In x l -> f x = false -> forallb f l = false.
Proof.
  intros Hin Hx. destruct (forallb f l) eqn:E; [|reflexivity].
  rewrite forallb_forall in E. rewrite (E x Hin) in Hx. discriminate.
Qed.

Lemma empty_contained (s : string) : PyStr.contains EmptyString s = true.
Proof. destruct s; reflexivity. Qed.

Lemma check_empty (self : Bomb.t) : check self EmptyString = true.
Proof. unfold check. now rewrite empty_contained. Qed.

End MatchMore.

(** ** Substrings *)

Module ContainsFacts.
Import PyStr.

Lemma prefix_app (t a b : string) : prefix t a = true -> prefix t (a ++ b) = true.
Proof.
  revert a. induction t as [|c t IH]; intros a; [intros _; now destruct (a ++ b)|].
  destruct a as [|c' a]; cbn [prefix append]; [discriminate|].
  destruct (ascii_dec c c'); [apply IH | discriminate].
Qed.

Lemma contains_app_r (t a b : string) : contains t a = true -> contains t (a ++ b) = true.
Proof.
  induction a as [|c a IH]; cbn [contains append].
  - destruct (prefix t EmptyString) eqn:E; [|discriminate].
    intros _. destruct t; [|discriminate]. destruct b; reflexivity.
  - destruct (prefix t (String c a)) eqn:E.
    + intros _. change (String c (a ++ b)) with (String c a ++ b).
      now rewrite (prefix_app _ _ _ E).
    + intros H. rewrite (IH H). now destruct (prefix t (String c (a ++ b))).
Qed.

Lemma contains_app_l (t a b : string) : contains t b = true -> contains t (a ++ b) = true.
Proof.
  intros H. induction a as [|c a IH]; cbn [append]; [assumption|].
  cbn [contains]. rewrite IH. now destruct (prefix t (String c (a ++ b))).
Qed.

Lemma contains_here (t b : string) : contains t (t ++ b) = true.
Proof.
  apply contains_app_r. destruct t as [|c t]; [reflexivity|].
  cbn [contains]. assert (H : prefix (String c t) (String c t) = true).
  { clear. induction (String c t) as [|c' s IH]; [reflexivity|].
    cbn [prefix]. destruct (ascii_dec c' c'); [assumption | congruence]. }
  now rewrite H.
Qed.

End ContainsFacts.

(** ** More on the scan and the final loop *)

Module MainMore.
Import Bomb MatchFacts MatchMore MainFacts SelectMore SortFacts VariantFacts.

Lemma getitem_in {V : Type} (d : list (Z * V)) (k : Z) :
  In k (map fst d) -> exists v, getitem d k = Ok v.
Proof.
  induction d as [|[k' v] d IH]; cbn [map fst In getitem]; [contradiction|].
  intros [-> | H].
  - rewrite Z.eqb_refl. eauto.
  - destruct (k' =? k); eauto.
Qed.

(** What the scan leaves behind, however it ends. *)
Lemma scan_inv (config_level : Z) (formulae search : list string)
      (bombs : list (string * Bomb.t)) :
  exists names,
    fst (scan config_level formulae search bombs) = map PrintName names
    /\ match snd (scan config_level formulae search bombs) with
       | Ok variants =>
           Forall valid_entry variants
           /\ (List.length names + List.length variants <= List.length bombs)%nat
       | Raise e =>
           e = IndexError /\ In EmptyString search
           /\ (List.length names <= List.length bombs)%nat
       end.
Proof.
  induction bombs as [|[name bomb] bombs (names & Hn & Hr)]; cbn [scan].
  - exists []. repeat split; [constructor | cbn; lia].
  - set (skip := match search with
                 | [] => io_ret false
                 | _ => m <~ lift (Bomb.match_ bomb search) ;; io_ret (negb m)
                 end).
    assert (Hskip : (exists b, skip = io_ret b)
                    \/ (skip = ([], Raise IndexError) /\ In EmptyString search)).
    { unfold skip. destruct search as [|item search]; [left; now exists false|].
      destruct (Bomb.match_ bomb (item :: search)) as [m|e] eqn:E.
      - left. exists (negb m). now rewrite io_bind_lift_ok.
      - right. destruct (match_raise_index _ _ _ E) as [-> Hin]. now split. }
    destruct Hskip as [[b ->] | [-> Hin]].
    + rewrite io_bind_ret.
      destruct (scan config_level formulae search bombs) as [out [vs|e]];
        cbn [fst snd] in Hn, Hr; subst out.
      * destruct Hr as [Hv Hlen]. destruct b.
        -- exists names. cbn [fst snd List.length]. repeat split; auto; lia.
        -- destruct (negb (existsb (String.eqb name) formulae)).
           ++ rewrite io_bind_print. exists (name :: names).
              cbn [fst snd map List.length]. repeat split; auto; lia.
           ++ rewrite io_bind_out. exists names. cbn [fst snd io_ret List.length].
              rewrite app_nil_r. split; [reflexivity|].
              destruct (negb (_ =? 0)) eqn:Ev; cbn [List.length]; [|split; [assumption | lia]].
              split; [|lia]. constructor; [|assumption].
              cbn [valid_entry].
              destruct (select_level_in (map fst (levels bomb)) config_level 0) as [E0 | Hi];
                [|assumption].
              rewrite E0 in Ev. discriminate.
      * destruct Hr as (-> & Hin & Hlen). destruct b.
        -- exists names. cbn [fst snd List.length]. repeat split; auto; lia.
        -- destruct (negb (existsb (String.eqb name) formulae)).
           ++ rewrite io_bind_print. exists (name :: names).
              cbn [fst snd map List.length]. repeat split; auto; lia.
           ++ exists names. cbn [io_bind fst snd List.length]. repeat split; auto; lia.
    + exists []. cbn [io_bind fst snd map List.length]. repeat split; auto; lia.
Qed.

Lemma map_result_raise {A B : Type} (f : A -> result B) (l : list A) (e : exn) :
  map_result f l = Raise e -> exists a, In a l /\ f a = Raise e.
Proof.
  induction l as [|a l IH]; cbn [map_result]; [discriminate|].
  destruct (f a) as [b|e'] eqn:Ea; cbn [bind].
  - destruct (map_result f l) as [bs|e'']; cbn [bind]; [discriminate|].
    intros [= <-]. destruct (IH eq_refl) as (a' & Hin & Ha'). exists a'. split; [now right | assumption].
  - intros [= <-]. exists a. split; [now left | assumption].
Qed.

Lemma map_result_length {A B : Type} (f : A -> result B) (l : list A) (bs : list B) :
  map_result f l = Ok bs -> List.length bs = List.length l.
Proof.
  intros H. apply map_result_spec in H. induction H; cbn [List.length]; congruence.
Qed.

Lemma avg_dmg_raise (v : Variant.t) (e : exn) :
  Variant.avg_dmg v = Raise e -> e = ValueError \/ e = OverflowError.
Proof.
  rewrite avg_dmg_halves.
  destruct (first_half_cases v) as [[t ->] | [-> | [-> Hm]]]; cbn [bind];
    [| intros [= <-]; auto | intros [= <-]; auto].
  destruct (second_half_cases v) as [(x & -> & _) | [-> | [-> Hm]]];
    [discriminate | intros [= <-]; auto | intros [= <-]; auto].
Qed.

Lemma sort_key_raise (x : entry) (e : exn) :
  valid_entry x -> sort_key x = Raise e -> e = ValueError \/ e = OverflowError.
Proof.
  destruct x as [[name bomb] level]. cbn [valid_entry sort_key]. intros Hin.
  destruct (getitem_in _ _ Hin) as [v ->]. cbn [bind]. apply avg_dmg_raise.
Qed.

(** The three ways a run of [main] can go. *)
Lemma main_cases (config_level : Z) (formulae search : list string)
      (bombs : list (string * Bomb.t)) :
  exists names,
    fst (scan config_level formulae search bombs) = map PrintName names
    /\ ((exists e, main config_level formulae bombs search = (map PrintName names, Raise e)
                   /\ ((e = IndexError /\ In EmptyString search
                        /\ snd (scan config_level formulae search bombs) = Raise e)
                       \/ ((e = ValueError \/ e = OverflowError)
                           /\ exists variants,
                               snd (scan config_level formulae search bombs) = Ok variants
                               /\ map_result sort_key variants = Raise e))
                   /\ (List.length names <= List.length bombs)%nat)
        \/ (exists variants keys texts,
               snd (scan config_level formulae search bombs) = Ok variants
               /\ map_result sort_key variants = Ok keys
               /\ main config_level formulae bombs search
                  = ((map PrintName names ++ map PrintBlock texts)%list, Ok tt)
               /\ Forall2 (fun x text => render x = Ok text)
                          (map fst (sorted_desc (combine variants keys))) texts
               /\ List.length texts = List.length variants
               /\ (List.length names + List.length variants <= List.length bombs)%nat)).
Proof.
  destruct (scan_inv config_level formulae search bombs) as (names & Hn & Hr).
  exists names. split; [assumption|]. unfold main.
  destruct (scan config_level formulae search bombs) as [out [vs|e]];
    cbn [fst snd] in Hn, Hr |- *; subst out.
  - destruct Hr as [Hv Hlen]. rewrite io_bind_out. cbn [fst snd].
    destruct (map_result sort_key vs) as [ks|e] eqn:Hk.
    + right. rewrite io_bind_lift_ok.
      pose proof (combine_keys _ _ _ (map_result_spec _ _ _ Hk)) as Hpairs.
      pose proof (sorted_desc_perm (combine vs ks)) as Hperm.
      assert (Hall : Forall (fun x => exists k, sort_key x = Ok k)
                            (map fst (sorted_desc (combine vs ks)))).
      { apply Forall_map. rewrite Hperm. eapply Forall_impl; [|exact Hpairs].
        intros x Hx. exists (snd x). exact Hx. }
      destruct (emit_spec _ Hall) as (texts & -> & Htexts).
      exists vs, ks, texts. cbn [fst snd]. repeat split; auto.
      apply Forall2_length in Htexts. rewrite <- Htexts, length_map.
      rewrite (Permutation_length Hperm), length_combine.
      rewrite (map_result_length _ _ _ Hk). lia.
    + left. exists e. cbn [lift io_bind fst snd]. rewrite app_nil_r.
      repeat split; [| lia]. right.
      destruct (map_result_raise _ _ _ Hk) as (x & Hin & Hx).
      rewrite Forall_forall in Hv. split; [exact (sort_key_raise x e (Hv x Hin) Hx)|].
      now exists vs.
  - destruct Hr as (-> & Hin & Hlen). left. exists IndexError.
    cbn [io_bind]. repeat split; auto.
Qed.

End MainMore.

(** ** More on the damage estimator *)

Module VariantMore.
Import Variant PyFloat PyFloatFacts VariantFacts.

Lemma binary_round_aux_positive (mx ex : Z) (lx : location) :
  0 <= mx -> not_negative (binary_round_aux prec emax false mx ex lx) = true.
Proof.
  intros Hm. pose proof (binary_round_aux_not_nan false mx ex lx Hm) as Hn.
  revert Hn. unfold binary_round_aux.
  destruct (shr_fexp prec emax mx ex lx) as [mrs' e'].
  destruct (shr_fexp prec emax _ e' loc_Exact) as [mrs'' e''].
  destruct (shr_m mrs''); [reflexivity | | discriminate].
  destruct (_ <=? _); reflexivity.
Qed.

Lemma of_int_not_negative (n : Z) (x : float) :
  0 <= n -> of_int n = Ok x -> not_negative x = true /\ finite x = true.
Proof.
  intros Hn H. split; [| exact (finite_or_finite _ _ _ H)].
  revert H. unfold of_int.
  assert (Hs : not_negative (binary_normalize prec emax n 0 false) = true).
  { destruct n as [|p|p]; [reflexivity | | lia]. cbn [binary_normalize]. unfold binary_round.
    destruct (shl_align p 0 _) as [mz ez]. apply binary_round_aux_positive. lia. }
  destruct (binary_normalize prec emax n 0 false); cbn [finite_or]; intros [= <-]; exact Hs.
Qed.

Lemma halve_not_negative (a : Z) (x : float) :
  0 <= a -> int_truediv a 2 = Ok x -> not_negative x = true /\ finite x = true.
Proof.
  intros Ha H. split; [| exact (finite_or_finite _ _ _ H)].
  revert H. unfold int_truediv.
  assert (Hs : not_negative (round_ratio a 2) = true).
  { destruct a as [|p|p]; [reflexivity | | lia]. cbn [round_ratio SFdiv xorb].
    pose proof (div_core_spec p 2) as Hc.
    destruct (SFdiv_core_binary prec emax (Zpos p) 0 2 0) as [[q e] l].
    apply binary_round_aux_positive. tauto. }
  destruct (round_ratio a 2); cbn [finite_or]; intros [= <-]; exact Hs.
Qed.

Lemma mul_lit_not_negative (x : float) :
  not_negative x = true -> finite x = true -> not_negative (mul x lit_3_24) = true.
Proof.
  destruct x as [s|s| |s m e]; cbn [not_negative finite]; try discriminate.
  - reflexivity.
  - intros Hs _. destruct s; [discriminate|].
    unfold mul, lit_3_24. cbn [SFmul xorb]. apply binary_round_aux_positive. lia.
Qed.

Lemma not_negative_ltb (x : float) :
  not_negative x = true -> ltb x (S754_zero false) = false.
Proof. destruct x as [s|[]| |[] m e]; cbn; congruence. Qed.

Lemma split_length (c : ascii) (s : string) :
  List.length (PyStr.split c s) = S (count_char c s).
Proof.
  induction s as [|a s IH]; [reflexivity|]. cbn [PyStr.split count_char].
  destruct (Ascii.eqb a c); cbn [List.length]; [now rewrite IH|].
  destruct (PyStr.split c s) as [|p ps]; [discriminate | exact IH].
Qed.

Lemma dice_parts_count (s : string) :
  count_char "d" s <> 1%nat -> dice_parts s = None.
Proof.
  intros H. unfold dice_parts. pose proof (split_length "d" s) as Hl.
  destruct (PyStr.split "d" s) as [|a [|b [|? ?]]]; try reflexivity.
  cbn [List.length] in Hl. congruence.
Qed.

End VariantMore.

(** ** The formula book *)

Module FormulaeFacts.

Lemma keep_formulae_raise (lines : list string) (e : exn) :
  keep_formulae lines = Raise e -> e = IndexError /\ In EmptyString lines.
Proof.
  induction lines as [|line lines IH]; cbn [keep_formulae]; [discriminate|].
  destruct line as [|c line].
  - intros [= <-]. split; [reflexivity | now left].
  - destruct (keep_formulae lines) as [kept|e']; cbn [bind]; [discriminate|].
    intros [= <-]. destruct (IH eq_refl) as [-> Hin]. split; [reflexivity | now right].
Qed.

Lemma keep_formulae_ok (lines : list string) :
  ~ In EmptyString lines -> keep_formulae lines = Ok (filter is_name lines).
Proof.
  induction lines as [|line lines IH]; cbn [keep_formulae filter In]; [reflexivity|].
  intros Hn. destruct line as [|c line]; [tauto|].
  rewrite IH by tauto. cbn [bind is_name]. now destruct (negb (Ascii.eqb c "#")).
Qed.

Lemma splitlines_line (line rest : string) :
  no_linebreak line = true ->
  splitlines_from false (line ++ String (ascii_of_nat 10) rest)
  = line :: splitlines_from false rest.
Proof.
  induction line as [|a line IH]; cbn [no_linebreak append]; intros H.
  - reflexivity.
  - apply andb_prop in H as [Ha Hl]. cbn [splitlines_from andb].
    apply negb_true_iff in Ha. rewrite Ha, (IH Hl). reflexivity.
Qed.

Lemma splitlines_last (line : string) :
  no_linebreak line = true -> line <> EmptyString ->
  splitlines_from false line = [line].
Proof.
  induction line as [|a line IH]; cbn [no_linebreak]; intros H Hne; [congruence|].
  apply andb_prop in H as [Ha Hl]. cbn [splitlines_from andb].
  apply negb_true_iff in Ha. rewrite Ha.
  destruct line as [|b line]; [reflexivity|].
  rewrite (IH Hl) by discriminate. reflexivity.
Qed.

Lemma join_cons (p q : string) (ps : list string) :
  PyStr.join PyStr.nl (p :: q :: ps)
  = p ++ String (ascii_of_nat 10) (PyStr.join PyStr.nl (q :: ps)).
Proof. reflexivity. Qed.

Lemma append_empty (s : string) : s ++ EmptyString = s.
Proof. induction s as [|x s IH]; cbn [append]; congruence. Qed.

Lemma append_assoc (a b c : string) : (a ++ b) ++ c = a ++ (b ++ c).
Proof. induction a as [|x a IH]; cbn [append]; congruence. Qed.

Lemma splitlines_join (names : list string) (tail : string) :
  Forall (fun n => no_linebreak n = true /\ n <> EmptyString) names ->
  tail = EmptyString \/ tail = PyStr.nl ->
  names <> [] ->
  splitlines (PyStr.join PyStr.nl names ++ tail) = names.
Proof.
  unfold splitlines. intros Hall Ht. induction Hall as [|p ps [Hp Hne] Hps IH]; [congruence|].
  intros _. destruct ps as [|q ps].
  - cbn [PyStr.join]. destruct Ht as [-> | ->].
    + rewrite append_empty. now apply splitlines_last.
    + change PyStr.nl with (String (ascii_of_nat 10) EmptyString).
      now rewrite splitlines_line.
  - rewrite join_cons.
    change (String (ascii_of_nat 10) (PyStr.join PyStr.nl (q :: ps)))
      with (String (ascii_of_nat 10) EmptyString ++ PyStr.join PyStr.nl (q :: ps)).
    rewrite !append_assoc. cbn [append].
    rewrite splitlines_line by assumption. f_equal. apply IH. discriminate.
Qed.

End FormulaeFacts.

(** ** Construction from records *)

Module RecordsFacts.
Import Build Records.

Lemma lookup_in (k : string) (d : list (string * value)) :
  (exists v, lookup k d = Some v) <-> In k (map fst d).
Proof.
  induction d as [|[k' v] d IH]; cbn [lookup map fst In].
  - split; [intros [v H]; discriminate | contradiction].
  - destruct (String.eqb_spec k' k) as [-> | Hne].
    + split; [now left | intros _; eauto].
    + rewrite IH. split; [now right | intros [H | H]; [congruence | assumption]].
Qed.

Lemma lookup_none (k : string) (d : list (string * value)) :
  lookup k d = None <-> ~ In k (map fst d).
Proof.
  rewrite <- lookup_in. destruct (lookup k d) as [v|].
  - split; [discriminate | intros H; exfalso; apply H; eauto].
  - split; [intros _ [v H]; discriminate | reflexivity].
Qed.

Lemma lookup_remove_same (k : string) (d : list (string * value)) :
  lookup k (remove k d) = None.
Proof.
  unfold remove. induction d as [|[k' v] d IH]; cbn [filter fst lookup]; [reflexivity|].
  destruct (String.eqb_spec k' k) as [-> | Hne]; cbn [negb]; [exact IH|].
  cbn [lookup]. destruct (String.eqb_spec k' k); [contradiction | exact IH].
Qed.

Lemma lookup_remove_other (k k' : string) (d : list (string * value)) :
  k <> k' -> lookup k (remove k' d) = lookup k d.
Proof.
  intros Hne. unfold remove.
  induction d as [|[k0 v] d IH]; cbn [filter fst lookup]; [reflexivity|].
  destruct (String.eqb_spec k0 k') as [-> | H0]; cbn [negb].
  - destruct (String.eqb_spec k' k); [congruence | exact IH].
  - cbn [lookup]. now rewrite IH.
Qed.

(** The keywords are accepted exactly when no key is foreign and the
    required one is present. *)
Lemma accepts_iff (fields : list string) (required : string) (d : list (string * value)) :
  accepts fields required d = true
  <-> (forall k, In k (map fst d) -> In k fields) /\ In required (map fst d).
Proof.
  unfold accepts. rewrite andb_true_iff, forallb_forall, <- lookup_in. split.
  - intros [Hall Hreq]. split.
    + intros k Hk. apply in_map_iff in Hk as ([k' v] & <- & Hin).
      specialize (Hall _ Hin). cbn [fst] in *. apply existsb_exists in Hall as (f & Hf & E).
      apply String.eqb_eq in E. now subst.
    + destruct (lookup required d); [eauto | discriminate].
  - intros [Hall [v Hreq]]. split.
    + intros [k v'] Hin. cbn [fst]. apply existsb_exists. exists k. split.
      * apply Hall. apply in_map_iff. now exists (k, v').
      * apply String.eqb_refl.
    + now rewrite Hreq.
Qed.

Lemma build_all_fst {K A B : Type} (g : K * A -> outcome (K * B))
      (l : list (K * A)) (bs : list (K * B)) :
  (forall kv b, g kv = Done (Some b) -> fst b = fst kv) ->
  build_all g l = Done (Some bs) -> map fst bs = map fst l.
Proof.
  intros Hg. revert bs. induction l as [|kv l IH]; cbn [build_all]; intros bs.
  - intros [= <-]. reflexivity.
  - destruct (g kv) as [e|b] eqn:E; [discriminate|].
    destruct (build_all g l) as [e|bs']; [discriminate|].
    destruct b as [b|], bs' as [bs'|]; try discriminate.
    intros [= <-]. cbn [map]. now rewrite (Hg _ _ E), (IH _ eq_refl).
Qed.

Lemma build_all_fails {A B : Type} (f : A -> outcome B) (l : list A) :
  (exists x e, In x l /\ f x = Fails e) <-> exists e, build_all f l = Fails e.
Proof.
  induction l as [|x l IH]; cbn [build_all In].
  - split; [intros (x & e & [] & _) | intros [e H]; discriminate].
  - destruct (f x) as [e|b] eqn:E.
    + split; [intros _; now exists e | intros _; exists x, e; auto].
    + destruct (build_all f l) as [e|bs].
      * split; [intros _; now exists e|]. intros _.
        destruct (proj2 IH (ex_intro _ e eq_refl)) as (y & e' & Hin & Hy).
        exists y, e'. auto.
      * split; [| intros [e H]; discriminate].
        intros (y & e & [<- | Hin] & Hy); [congruence|].
        destruct (proj1 IH (ex_intro _ y (ex_intro _ e (conj Hin Hy)))) as [e' H'].
        discriminate.
Qed.

Lemma accepts_false_iff (fields : list string) (required : string)
      (d : list (string * value)) :
  accepts fields required d = false
  <-> (exists k, In k (map fst d) /\ ~ In k fields) \/ ~ In required (map fst d).
Proof.
  split.
  - intros H. destruct (lookup required d) as [v|] eqn:Er.
    + left. unfold accepts in H. rewrite Er, andb_true_r in H.
      clear Er. induction d as [|[k v'] d IH]; cbn [forallb fst] in H; [discriminate|].
      destruct (existsb (String.eqb k) fields) eqn:Ek.
      * destruct (IH H) as (k' & Hin & Hn). exists k'. split; [now right | assumption].
      * exists k. split; [now left|]. intros Hin.
        assert (existsb (String.eqb k) fields = true); [| congruence].
        apply existsb_exists. exists k. split; [assumption | apply String.eqb_refl].
    + right. now apply lookup_none.
  - intros H. destruct (accepts fields required d) eqn:E; [|reflexivity].
    apply accepts_iff in E as [Hall Hreq]. destruct H as [(k & Hin & Hn) | Hn]; [|contradiction].
    exfalso. apply Hn, Hall, Hin.
Qed.

Lemma field_given {A : Type} (coerce : value -> option A) (default : A)
      (k : string) (d : list (string * value)) (a : A) :
  field coerce default k d = Some a ->
  (lookup k d = None -> a = default)
  /\ (forall x, lookup k d = Some x -> coerce x = Some a).
Proof.
  unfold field. destruct (lookup k d) as [v|].
  - intros H. split; [discriminate | now intros x [= <-]].
  - intros [= <-]. split; [reflexivity | discriminate].
Qed.

End RecordsFacts.

(** * Further theorems *)

Import SelectMore MatchMore ContainsFacts MainMore VariantMore.
Import FormulaeFacts RecordsFacts.

(** X1.  The level selector stops at the first key above the ceiling: the
    keys after it are not looked at, even those that are not above the
    ceiling, and the level chosen is the last key before it (none when it
    comes first). *)
Theorem X1_selector_stops_at_first_high_key
        (before : list Z) (k : Z) (after : list Z) (ceiling : Z) :
  Forall (fun x => x <= ceiling) before -> ceiling < k ->
  select_level (before ++ k :: after)%list ceiling 0 = last before 0.
Proof.
  intros Hb Hk. rewrite (select_level_prefix before k after ceiling 0 Hb Hk).
  now apply select_level_all.
Qed.

Lemma X1_witness :
  Forall (fun x => x <= 4) [1] /\ 4 < 6
  /\ select_level [1; 6; 3] 4 0 = 1.
Proof.
  assert (Hb : Forall (fun x => x <= 4) [1]) by (repeat constructor; discriminate).
  assert (Hk : 4 < 6) by reflexivity.
  split; [exact Hb|]. split; [exact Hk|].
  exact (X1_selector_stops_at_first_high_key [1] 6 [3] 4 Hb Hk).
Defined.

(** X2.  For positive keys in ascending order, a higher ceiling never
    deselects an item and never lowers the level chosen. *)
Theorem X2_selector_monotone (keys : list Z) (low high : Z) :
  ascending keys -> Forall (fun k => 0 < k) keys -> low <= high ->
  select_level keys low 0 <= select_level keys high 0
  /\ (select_level keys low 0 <> 0 -> select_level keys high 0 <> 0).
Proof.
  intros Hasc Hpos Hle.
  pose proof (select_level_spec keys low 0 Hasc) as Hl.
  pose proof (select_level_spec keys high 0 Hasc) as Hh. cbv zeta in Hl, Hh.
  rewrite Forall_forall in Hpos.
  assert (Hgoal : select_level keys low 0 <= select_level keys high 0
                  /\ (0 < select_level keys low 0 -> 0 < select_level keys high 0)).
  { destruct Hl as [[El _] | (Il & Ll & _)].
    - rewrite El. destruct Hh as [[Eh _] | (Ih & _ & _)].
      + rewrite Eh. lia.
      + specialize (Hpos _ Ih). lia.
    - destruct Hh as [[_ Hall] | (Ih & _ & Hall)]; rewrite Forall_forall in Hall.
      + specialize (Hall _ Il). lia.
      + specialize (Hall _ Il). specialize (Hpos _ Il). lia. }
  destruct Hgoal as [H1 H2]. split; [assumption|]. intros Hne.
  destruct (select_level_in keys low 0) as [E | Hin]; [congruence|].
  specialize (Hpos _ Hin). lia.
Qed.

Lemma X2_witness :
  select_level [1; 3; 6] 2 0 <= select_level [1; 3; 6] 5 0
  /\ (select_level [1; 3; 6] 2 0 <> 0 -> select_level [1; 3; 6] 5 0 <> 0).
Proof.
  apply (X2_selector_monotone [1; 3; 6] 2 5).
  - repeat constructor; reflexivity.
  - repeat constructor; reflexivity.
  - discriminate.
Defined.





(** X5.  The program prints at most one name or block for each item of
    the catalog, however the run ends. *)
Theorem X5_one_event_per_item (config_level : Z) (formulae search : list string)
        (bombs : list (string * Bomb.t)) :
  (List.length (fst (main config_level formulae bombs search)) <= List.length bombs)%nat.
Proof.
  destruct (main_cases config_level formulae search bombs)
    as (names & _ & [(e' & -> & _ & Hlen)
                    | (vs & ks & texts & _ & _ & -> & _ & Ht & Hlen)]);
    cbn [fst].
  - now rewrite length_map.
  - rewrite length_app, !length_map. lia.
Qed.

(** X6.  When no token is empty, the order of the search tokens does not
    matter to the matcher. *)
Theorem X6_token_order (bomb : Bomb.t) (search search' : list string) :
  Forall (fun item => item <> EmptyString) search ->
  Permutation search search' ->
  Bomb.match_ bomb search = Bomb.match_ bomb search'.
Proof.
  intros Hne Hp.
  assert (Hne' : Forall (fun item => item <> EmptyString) search') by now rewrite <- Hp.
  rewrite (match_nonempty bomb search Hne), (match_nonempty bomb search' Hne').
  now rewrite (forallb_perm _ _ _ Hp).
Qed.

Lemma X6_witness :
  Bomb.match_ acid_flask ["acid"; "-fire"] = Bomb.match_ acid_flask ["-fire"; "acid"].
Proof.
  apply X6_token_order.
  - repeat constructor; discriminate.
  - apply perm_swap.
Defined.

(** X7.  A token that is the lone character ['-'] is satisfied by no bomb:
    when no token is empty and one of them is ["-"], the matcher returns
    false. *)
Theorem X7_lone_dash (bomb : Bomb.t) (search : list string) :
  Forall (fun item => item <> EmptyString) search ->
  In "-" search ->
  Bomb.match_ bomb search = Ok false.
Proof.
  intros Hne Hin. rewrite (match_nonempty bomb search Hne). f_equal.
  apply (forallb_in_false _ _ "-" Hin).
  cbn [Bomb.token_ok Ascii.eqb Bool.eqb]. now rewrite check_empty.
Qed.

Lemma X7_witness : Bomb.match_ acid_flask ["acid"; "-"] = Ok false.
Proof.
  apply X7_lone_dash.
  - repeat constructor; discriminate.
  - right; left; reflexivity.
Defined.

(** X8.  A token that does not start with ['-'] and the same token with
    ['-'] before it are never satisfied together. *)
Theorem X8_token_and_negation (bomb : Bomb.t) (c : ascii) (rest : string)
        (search : list string) :
  Forall (fun item => item <> EmptyString) search ->
  c <> "-"%char ->
  In (String c rest) search -> In (String "-" (String c rest)) search ->
  Bomb.match_ bomb search = Ok false.
Proof.
  intros Hne Hc Hpos Hneg. rewrite (match_nonempty bomb search Hne). f_equal.
  destruct (Bomb.check bomb (String c rest)) eqn:E.
  - apply (forallb_in_false _ _ _ Hneg). cbn [Bomb.token_ok Ascii.eqb Bool.eqb].
    now rewrite E.
  - apply (forallb_in_false _ _ _ Hpos). cbn [Bomb.token_ok].
    destruct (Ascii.eqb_spec c "-"); [contradiction | exact E].
Qed.

Lemma X8_witness : Bomb.match_ acid_flask ["acid"; "-acid"] = Ok false.
Proof.
  apply (X8_token_and_negation acid_flask "a" "cid").
  - repeat constructor; discriminate.
  - discriminate.
  - left; reflexivity.
  - right; left; reflexivity.
Defined.

(** X9.  The matcher accepts two token lists put together exactly when it
    accepts each of them. *)
Theorem X9_match_append (bomb : Bomb.t) (search search' : list string) :
  Bomb.match_ bomb (search ++ search')%list = Ok true
  <-> Bomb.match_ bomb search = Ok true /\ Bomb.match_ bomb search' = Ok true.
Proof.
  rewrite !match_true_iff, Forall_app, forallb_app, andb_true_iff. tauto.
Qed.

Lemma X9_witness :
  Bomb.match_ acid_flask (["acid"] ++ ["-fire"])%list = Ok true.
Proof.
  apply (proj2 (X9_match_append acid_flask ["acid"] ["-fire"])). split; reflexivity.
Defined.

(** X10.  The fixed wording of the save paragraph is searched too: a token
    that occurs in ["Creatures within the area of effect must make a "]
    and does not start with ['-'] is satisfied by every bomb that has a
    save. *)
Theorem X10_save_wording_matches (bomb : Bomb.t) (sv : Save.t) (c : ascii) (rest : string) :
  Bomb.save bomb = Some sv -> c <> "-"%char ->
  PyStr.contains (String c rest) "Creatures within the area of effect must make a " = true ->
  Bomb.match_ bomb [String c rest] = Ok true.
Proof.
  intros Hs Hc Ht.
  assert (Hne : Forall (fun item => item <> EmptyString) [String c rest])
    by (repeat constructor; discriminate).
  rewrite (match_nonempty bomb _ Hne). cbn [forallb Bomb.token_ok].
  destruct (Ascii.eqb_spec c "-"); [contradiction|]. rewrite andb_true_r. f_equal.
  unfold Bomb.check. rewrite Hs.
  assert (H : PyStr.contains (String c rest) (Save.str sv) = true).
  { unfold Save.str.
    repeat match goal with
           | |- context [if ?b then _ else _] => destruct b
           end; repeat apply contains_app_r; exact Ht. }
  rewrite H. now rewrite !orb_true_r.
Qed.

Lemma X10_witness :
  let bomb := {| Bomb.type := "poison"; Bomb.levels := [];
                 Bomb.on_hit := EmptyString; Bomb.on_crit := EmptyString;
                 Bomb.additional := EmptyString;
                 Bomb.save := Some {| Save.type := "Fortitude"; Save.basic := false;
                                      Save.success := EmptyString;
                                      Save.failure := "sickened 1";
                                      Save.critical := EmptyString |} |} in
  Bomb.match_ bomb ["area"] = Ok true.
Proof.
  intros bomb. apply (X10_save_wording_matches bomb _ "a" "rea" eq_refl).
  - discriminate.
  - reflexivity.
Defined.

(** X11.  The texts of a save are searched: a token that does not start
    with ['-'] and occurs in the save's type or in one of its success,
    failure or critical texts is satisfied by the bomb. *)
Theorem X11_save_texts_match (bomb : Bomb.t) (sv : Save.t) (c : ascii) (rest : string) :
  Bomb.save bomb = Some sv -> c <> "-"%char ->
  PyStr.contains (String c rest) (Save.type sv) = true
  \/ PyStr.contains (String c rest) (Save.success sv) = true
  \/ PyStr.contains (String c rest) (Save.failure sv) = true
  \/ PyStr.contains (String c rest) (Save.critical sv) = true ->
  Bomb.match_ bomb [String c rest] = Ok true.
Proof.
  intros Hs Hc Ht.
  assert (Hne : Forall (fun item => item <> EmptyString) [String c rest])
    by (repeat constructor; discriminate).
  rewrite (match_nonempty bomb _ Hne). cbn [forallb Bomb.token_ok].
  destruct (Ascii.eqb_spec c "-"); [contradiction|]. rewrite andb_true_r. f_equal.
  unfold Bomb.check. rewrite Hs.
  assert (H : PyStr.contains (String c rest) (Save.str sv) = true).
  { assert (Hempty : forall s, PyStr.contains (String c rest) s = true ->
                               nonempty s = false -> False).
    { intros s H1 H2. destruct s; [discriminate H1 | discriminate H2]. }
    unfold Save.str.
    destruct (nonempty (Save.success sv)) eqn:E1, (nonempty (Save.failure sv)) eqn:E2,
      (nonempty (Save.critical sv)) eqn:E3;
      destruct Ht as [Ht | [Ht | [Ht | Ht]]];
      try (exfalso; eapply Hempty; eassumption);
      auto 12 using contains_app_r, contains_app_l. }
  rewrite H. now rewrite !orb_true_r.
Qed.

Lemma X11_witness :
  let bomb := {| Bomb.type := "poison"; Bomb.levels := [];
                 Bomb.on_hit := EmptyString; Bomb.on_crit := EmptyString;
                 Bomb.additional := EmptyString;
                 Bomb.save := Some {| Save.type := "Fortitude"; Save.basic := false;
                                      Save.success := EmptyString;
                                      Save.failure := "sickened 1";
                                      Save.critical := EmptyString |} |} in
  Bomb.match_ bomb ["sickened"] = Ok true.
Proof.
  intros bomb. apply (X11_save_texts_match bomb _ "s" "ickened" eq_refl).
  - discriminate.
  - right; right; left; reflexivity.
Defined.

(** X12.  The score is never below zero when [splash] is not negative
    and [persistent] is a non-negative integer or a dice text whose count
    times size is not negative. *)
Theorem X12_score_not_negative (v : Variant.t) (x : float) :
  0 <= Variant.splash v ->
  match Variant.persistent v with
  | Int p => 0 <= p
  | Str s => forall c d, dice_parts s = Some (c, d) -> 0 <= c * d
  end ->
  Variant.avg_dmg v = Ok x ->
  ltb x (S754_zero false) = false.
Proof.
  intros Hs Hp. rewrite avg_dmg_halves.
  destruct (first_half v) as [t|e]; cbn [bind]; [|discriminate].
  unfold second_half. intros H. apply not_negative_ltb. revert H.
  destruct (Variant.persistent v) as [p|s]; cbn [bind]; cbv beta iota in Hp.
  - unfold number_mul_float, int_mul.
    destruct (of_int (p + Variant.splash v)) as [y|e] eqn:Ey; cbn [bind]; [|discriminate].
    intros [= <-]. assert (Hps : 0 <= p + Variant.splash v) by lia.
    destruct (of_int_not_negative _ _ Hps Ey).
    now apply mul_lit_not_negative.
  - rewrite dice_average_spec. destruct (dice_parts s) as [[c d]|]; [|discriminate].
    destruct (int_truediv (c * d) 2) as [y|e] eqn:Ey; cbn [bind number_mul_float]; [|discriminate].
    intros [= <-]. destruct (halve_not_negative _ _ (Hp c d eq_refl) Ey).
    now apply mul_lit_not_negative.
Qed.

Lemma X12_witness :
  ltb (mul (round_ratio 3 1) lit_3_24) (S754_zero false) = false
  /\ exists y, Variant.avg_dmg (flat_tier "lesser" 0 0 (-1)) = Ok y
               /\ ltb y (S754_zero false) = true.
Proof.
  split.
  - apply (X12_score_not_negative (flat_tier "lesser" 0 1 2)).
    + discriminate.
    + discriminate.
    + reflexivity.
  - eexists. split; reflexivity.
Defined.

(** X13.  A dice text must hold the letter [d] exactly once: with none,
    or with two or more, the estimator raises ValueError, for [damage] and,
    when [damage] is an integer, for [persistent]. *)
Theorem X13_exactly_one_d (v : Variant.t) (s : string) :
  count_char "d" s <> 1%nat ->
  (Variant.damage v = Str s -> Variant.avg_dmg v = Raise ValueError)
  /\ (forall n, Variant.damage v = Int n -> Variant.persistent v = Str s ->
                Variant.avg_dmg v = Raise ValueError).
Proof.
  intros Hc. pose proof (dice_parts_count s Hc) as Hd. rewrite avg_dmg_halves. split.
  - intros E. unfold first_half. now rewrite E, dice_average_spec, Hd.
  - intros n En Ep. rewrite (first_half_int v n En). cbn [bind].
    unfold second_half. now rewrite Ep, dice_average_spec, Hd.
Qed.

Lemma X13_witness :
  Variant.avg_dmg (Variant.Build_t "lesser" 0 (Str "2d6d") 0 (Int 0)) = Raise ValueError
  /\ Variant.avg_dmg (Variant.Build_t "lesser" 0 (Int 0) 0 (Str "26")) = Raise ValueError.
Proof.
  split.
  - apply (proj1 (X13_exactly_one_d (Variant.Build_t "lesser" 0 (Str "2d6d") 0 (Int 0))
                                    "2d6d" ltac:(discriminate))).
    reflexivity.
  - apply (proj2 (X13_exactly_one_d (Variant.Build_t "lesser" 0 (Int 0) 0 (Str "26"))
                                    "26" ltac:(discriminate)) 0); reflexivity.
Defined.





(** X16.  When a tier deals no damage (its [damage], [persistent] and
    [splash] are zero or empty) and the item has no [additional] type, the
    text of [variant_str] does not depend on the item's damage type. *)
Theorem X16_type_unused_without_damage (bomb : Bomb.t) (level : Z) (variant : Variant.t)
        (other : string) :
  getitem (Bomb.levels bomb) level = Ok variant ->
  truthy (Variant.damage variant) = false ->
  truthy (Variant.persistent variant) = false ->
  Variant.splash variant = 0 ->
  Bomb.additional bomb = EmptyString ->
  Bomb.variant_str bomb level
  = Bomb.variant_str
      {| Bomb.type := other; Bomb.levels := Bomb.levels bomb;
         Bomb.on_hit := Bomb.on_hit bomb; Bomb.on_crit := Bomb.on_crit bomb;
         Bomb.additional := Bomb.additional bomb; Bomb.save := Bomb.save bomb |}
      level.
Proof.
  intros Hv Hd Hp Hs Ha. unfold Bomb.variant_str.
  cbn [Bomb.type Bomb.levels Bomb.on_hit Bomb.on_crit Bomb.additional Bomb.save].
  rewrite Hv. cbn [bind]. rewrite Hd, Hp, Hs, Ha. reflexivity.
Qed.

Lemma X16_witness :
  let bomb := {| Bomb.type := "fire";
                 Bomb.levels := [(1, {| Variant.level := "lesser"; Variant.bonus := 1;
                                        Variant.damage := Int 0; Variant.splash := 0;
                                        Variant.persistent := Str EmptyString |})];
                 Bomb.on_hit := "dazzled"; Bomb.on_crit := EmptyString;
                 Bomb.additional := EmptyString; Bomb.save := None |} in
  Bomb.variant_str bomb 1
  = Ok "You gain a +1 bonus to attack rolls. On a hit, the target is dazzled until the start of your next turn.".
Proof.
  intros bomb.
  rewrite (X16_type_unused_without_damage bomb 1 _ "cold" eq_refl eq_refl eq_refl eq_refl eq_refl).
  reflexivity.
Defined.

(** X17.  The sentence for the [additional] damage type repeats the tier's
    [damage] value, also when that value is 0, which the damage sentence
    itself leaves out: for a tier with [damage = 0] and nothing else set,
    the text reads ["The bomb deals 0 additional <type> damage."]. *)
Theorem X17_additional_repeats_damage (bomb : Bomb.t) (level : Z) (variant : Variant.t) :
  getitem (Bomb.levels bomb) level = Ok variant ->
  Variant.damage variant = Int 0 ->
  Variant.bonus variant = 0 ->
  truthy (Variant.persistent variant) = false ->
  Variant.splash variant = 0 ->
  Bomb.additional bomb <> EmptyString ->
  Bomb.on_hit bomb = EmptyString -> Bomb.on_crit bomb = EmptyString ->
  Bomb.save bomb = None ->
  Bomb.variant_str bomb level
  = Ok ("The bomb deals 0 additional " ++ (Bomb.additional bomb ++ " damage") ++ ".").
Proof.
  intros Hv Hd Hb Hp Hs Ha Hh Hc Hsv. unfold Bomb.variant_str.
  rewrite Hv. cbn [bind]. rewrite Hd, Hb, Hp, Hs, Hh, Hc, Hsv.
  assert (E : nonempty (Bomb.additional bomb) = true).
  { unfold nonempty. destruct (String.eqb_spec (Bomb.additional bomb) EmptyString);
      [contradiction | reflexivity]. }
  rewrite E. reflexivity.
Qed.

Lemma X17_witness :
  let bomb := {| Bomb.type := "fire";
                 Bomb.levels := [(1, flat_tier "lesser" 0 0 0)];
                 Bomb.on_hit := EmptyString; Bomb.on_crit := EmptyString;
                 Bomb.additional := "cold"; Bomb.save := None |} in
  Bomb.variant_str bomb 1 = Ok "The bomb deals 0 additional cold damage.".
Proof.
  intros bomb.
  rewrite (X17_additional_repeats_damage bomb 1 _ eq_refl eq_refl eq_refl eq_refl eq_refl
             ltac:(discriminate) eq_refl eq_refl eq_refl).
  reflexivity.
Defined.

(** X18.  When no search token is empty the scan completes, and the
    entries it hands to the ranking are exactly the catalog items that are
    in the formula book, are accepted by the matcher, and have a non-zero
    selected level, each at that level. *)
Theorem X18_ranked_candidates (config_level : Z) (formulae search : list string)
        (bombs : list (string * Bomb.t)) :
  Forall (fun item => item <> EmptyString) search ->
  exists out variants,
    scan config_level formulae search bombs = (out, Ok variants)
    /\ forall name bomb level,
        In (name, bomb, level) variants
        <-> In (name, bomb) bombs
            /\ known formulae name = true
            /\ Bomb.match_ bomb search = Ok true
            /\ level = select_level (map fst (Bomb.levels bomb)) config_level 0
            /\ level <> 0.
Proof.
  intros Hne. eexists. eexists. split; [exact (scan_spec _ _ _ _ Hne)|].
  intros name bomb level. unfold kept. rewrite in_flat_map. split.
  - intros ([n b] & Hin & Hx). cbn [fst snd] in Hx.
    destruct (forallb (Bomb.token_ok b) search) eqn:Ef; [|contradiction].
    destruct (known formulae n) eqn:Ek; [|contradiction].
    destruct (Z.eqb_spec (select_level (map fst (Bomb.levels b)) config_level 0) 0) as [|Hz];
      [contradiction|].
    cbn [andb negb In] in Hx. destruct Hx as [[= <- <- <-] | []].
    repeat split; auto. now rewrite (match_nonempty b search Hne), Ef.
  - intros (Hin & Hk & Hm & -> & Hz). exists (name, bomb). split; [assumption|].
    cbn [fst snd]. rewrite (match_nonempty bomb search Hne) in Hm. injection Hm as ->.
    rewrite Hk. destruct (Z.eqb_spec (select_level (map fst (Bomb.levels bomb)) config_level 0) 0);
      [contradiction|]. now left.
Qed.

Lemma X18_witness :
  exists out variants,
    scan 4 ["b"] ["fire"] [("a", three_tiers "acid" 1 2 3); ("b", three_tiers "fire" 1 2 3)]
    = (out, Ok variants)
    /\ In ("b", three_tiers "fire" 1 2 3, 3) variants.
Proof.
  destruct (X18_ranked_candidates 4 ["b"] ["fire"]
              [("a", three_tiers "acid" 1 2 3); ("b", three_tiers "fire" 1 2 3)])
    as (out & variants & Hs & Hv).
  - repeat constructor; discriminate.
  - exists out, variants. split; [exact Hs|]. apply Hv.
    repeat split; try reflexivity; [right; left; reflexivity | discriminate].
Defined.

(** X19.  Reading the formula book fails, with IndexError, exactly when
    the text has an empty line. *)
Theorem X19_blank_line_fails (content : string) :
  (raises (read_formulae content) <-> In EmptyString (splitlines content))
  /\ (forall e, read_formulae content = Raise e -> e = IndexError).
Proof.
  unfold read_formulae. split; [split|].
  - intros [e He]. exact (proj2 (keep_formulae_raise _ _ He)).
  - intros Hin. destruct (keep_formulae (splitlines content)) as [kept|e] eqn:E; [|now exists e].
    exfalso. clear - Hin E. revert kept E.
    induction (splitlines content) as [|line lines IH]; [contradiction|].
    cbn [keep_formulae]. destruct line as [|c line]; [discriminate|].
    destruct Hin as [Hin | Hin]; [discriminate|].
    destruct (keep_formulae lines) as [k|e]; cbn [bind]; [|discriminate].
    intros _ _. exact (IH Hin k eq_refl).
  - intros e He. exact (proj1 (keep_formulae_raise _ _ He)).
Qed.

Lemma X19_witness :
  raises (read_formulae ("acid flask" ++ PyStr.nl ++ PyStr.nl ++ "frost vial")).
Proof.
  apply (proj1 (X19_blank_line_fails _)). right; left; reflexivity.
Defined.

(** X20.  When it returns, [read_formulae] gives the lines of the text
    that do not start with ['#'], in order; none of them is empty. *)
Theorem X20_comments_dropped (content : string) (names : list string) :
  read_formulae content = Ok names ->
  names = filter is_name (splitlines content)
  /\ Forall (fun n => n <> EmptyString /\ prefix "#" n = false) names.
Proof.
  unfold read_formulae. intros H.
  assert (Hn : ~ In EmptyString (splitlines content)).
  { intros Hin. clear - Hin H. revert names H.
    induction (splitlines content) as [|line lines IH]; [contradiction|].
    cbn [keep_formulae]. destruct line as [|c line]; [discriminate|].
    destruct Hin as [Hin | Hin]; [discriminate|].
    destruct (keep_formulae lines) as [k|e]; cbn [bind]; [|discriminate].
    intros _ _. exact (IH Hin k eq_refl). }
  rewrite (keep_formulae_ok _ Hn) in H. injection H as <-. split; [reflexivity|].
  apply Forall_forall. intros n Hin. apply filter_In in Hin as [_ Hname].
  destruct n as [|c n]; [discriminate|]. split; [discriminate|].
  cbn [is_name] in Hname. cbn [prefix].
  destruct (ascii_dec "#" c) as [<- | Hc]; [discriminate Hname|]. reflexivity.
Qed.

Lemma X20_witness :
  read_formulae ("acid flask" ++ PyStr.nl ++ "#bottled lightning" ++ PyStr.nl ++ "frost vial")
  = Ok ["acid flask"; "frost vial"]
  /\ Forall (fun n => n <> EmptyString /\ prefix "#" n = false) ["acid flask"; "frost vial"].
Proof.
  assert (H : read_formulae ("acid flask" ++ PyStr.nl ++ "#bottled lightning" ++ PyStr.nl
                             ++ "frost vial") = Ok ["acid flask"; "frost vial"])
    by reflexivity.
  split; [exact H|]. exact (proj2 (X20_comments_dropped _ _ H)).
Defined.

(** X21.  A formula book written as one name per line reads back as the
    list of names, with or without a line break after the last name,
    provided each name is non-empty, holds no line-break character and
    does not start with ['#']. *)
Theorem X21_formula_book_round_trip (names : list string) :
  Forall (fun n => no_linebreak n = true /\ is_name n = true) names ->
  read_formulae (PyStr.join PyStr.nl names) = Ok names
  /\ (names <> [] -> read_formulae (PyStr.join PyStr.nl names ++ PyStr.nl) = Ok names).
Proof.
  intros Hall.
  assert (Hgood : Forall (fun n => no_linebreak n = true /\ n <> EmptyString) names).
  { eapply Forall_impl; [|exact Hall]. intros n [H1 H2]. split; [assumption|].
    destruct n; [discriminate H2 | discriminate]. }
  assert (Hkeep : keep_formulae names = Ok names).
  { rewrite keep_formulae_ok.
    - f_equal. clear Hgood. induction Hall as [|n ns [_ Hn] _ IH]; [reflexivity|].
      cbn [filter]. now rewrite Hn, IH.
    - intros Hin. rewrite Forall_forall in Hgood. now destruct (Hgood _ Hin). }
  unfold read_formulae. split.
  - destruct names as [|n ns]; [reflexivity|].
    rewrite <- (append_empty (PyStr.join PyStr.nl (n :: ns))).
    rewrite (splitlines_join (n :: ns) EmptyString Hgood) by (auto; discriminate).
    exact Hkeep.
  - intros Hne. rewrite (splitlines_join names PyStr.nl Hgood) by auto. exact Hkeep.
Qed.

Lemma X21_witness :
  read_formulae (PyStr.join PyStr.nl ["acid flask"; "frost vial"] ++ PyStr.nl)
  = Ok ["acid flask"; "frost vial"].
Proof.
  assert (H : Forall (fun n => no_linebreak n = true /\ is_name n = true)
                     ["acid flask"; "frost vial"]) by (repeat constructor).
  apply (proj2 (X21_formula_book_round_trip ["acid flask"; "frost vial"] H)).
  discriminate.
Defined.

(** X22.  [Save.from_dict] raises TypeError exactly when the record has a
    key that is not a field of [Save] or lacks the key ["type"]; a value
    that is not a mapping with string keys is refused with TypeError too,
    and no other exception is raised. *)
Theorem X22_save_keywords :
  (forall d, Records.Save_from_dict (VDict d) = Build.Fails Build.TypeError
             <-> (exists k, In k (map fst d) /\ ~ In k Records.save_fields)
                 \/ ~ In "type" (map fst d))
  /\ (forall data, (forall d, data <> VDict d) ->
                   Records.Save_from_dict data = Build.Fails Build.TypeError)
  /\ (forall data e, Records.Save_from_dict data = Build.Fails e -> e = Build.TypeError).
Proof.
  repeat split.
  - unfold Records.Save_from_dict. intros H.
    destruct (Build.accepts Records.save_fields "type" d) eqn:E; [discriminate|].
    now apply accepts_false_iff.
  - intros H. apply accepts_false_iff in H. unfold Records.Save_from_dict. now rewrite H.
  - intros data H. destruct data; try reflexivity. now destruct (H d).
  - intros data e. destruct data; cbn [Records.Save_from_dict]; try (intros [= <-]; reflexivity).
    destruct (Build.accepts _ _ _); [discriminate | intros [= <-]; reflexivity].
Qed.

Lemma X22_witness :
  Records.Save_from_dict (VDict [("type", VStr "Fortitude"); ("dc", VInt 20)])
  = Build.Fails Build.TypeError
  /\ Records.Save_from_dict (VDict [("basic", VBool true)]) = Build.Fails Build.TypeError.
Proof.
  split.
  - apply (proj1 X22_save_keywords). left. exists "dc". split.
    + right; left; reflexivity.
    + intros H. repeat (destruct H as [H | H]; [discriminate H|]). exact H.
  - apply (proj1 X22_save_keywords). right.
    intros [H | []]. discriminate H.
Defined.

(** X23.  [Variant.from_dict] raises TypeError exactly when the record
    has a key that is not a field of [Variant] or lacks the key ["level"];
    a value that is not a mapping with string keys is refused with
    TypeError too, and no other exception is raised. *)
Theorem X23_variant_keywords :
  (forall d, Records.Variant_from_dict (VDict d) = Build.Fails Build.TypeError
             <-> (exists k, In k (map fst d) /\ ~ In k Records.variant_fields)
                 \/ ~ In "level" (map fst d))
  /\ (forall data, (forall d, data <> VDict d) ->
                   Records.Variant_from_dict data = Build.Fails Build.TypeError)
  /\ (forall data e, Records.Variant_from_dict data = Build.Fails e -> e = Build.TypeError).
Proof.
  repeat split.
  - unfold Records.Variant_from_dict. intros H.
    destruct (Build.accepts Records.variant_fields "level" d) eqn:E; [discriminate|].
    now apply accepts_false_iff.
  - intros H. apply accepts_false_iff in H. unfold Records.Variant_from_dict. now rewrite H.
  - intros data H. destruct data; try reflexivity. now destruct (H d).
  - intros data e. destruct data; cbn [Records.Variant_from_dict]; try (intros [= <-]; reflexivity).
    destruct (Build.accepts _ _ _); [discriminate | intros [= <-]; reflexivity].
Qed.

Lemma X23_witness :
  Records.Variant_from_dict (VDict [("bonus", VInt 1)]) = Build.Fails Build.TypeError
  /\ Records.Variant_from_dict (VInt 3) = Build.Fails Build.TypeError.
Proof.
  split.
  - apply (proj1 X23_variant_keywords). right. intros [H | []]. discriminate H.
  - apply (proj1 (proj2 X23_variant_keywords)). intros d H. discriminate H.
Defined.

(** X24.  A tier built by [Variant.from_dict] holds each value of the
    record unchanged under its field, and the default of the field when
    the record has no such key: 0 for [bonus], [damage], [splash] and
    [persistent]. *)
Theorem X24_variant_fields (d : list (string * value)) (v : Variant.t) :
  Records.Variant_from_dict (VDict d) = Build.Done (Some v) ->
  Build.lookup "level" d = Some (VStr (Variant.level v))
  /\ (Build.lookup "bonus" d = None -> Variant.bonus v = 0)
  /\ (forall x, Build.lookup "bonus" d = Some x -> x = VInt (Variant.bonus v))
  /\ (Build.lookup "damage" d = None -> Variant.damage v = Int 0)
  /\ (forall x, Build.lookup "damage" d = Some x ->
                Build.as_int_or_str x = Some (Variant.damage v))
  /\ (Build.lookup "splash" d = None -> Variant.splash v = 0)
  /\ (forall x, Build.lookup "splash" d = Some x -> x = VInt (Variant.splash v))
  /\ (Build.lookup "persistent" d = None -> Variant.persistent v = Int 0)
  /\ (forall x, Build.lookup "persistent" d = Some x ->
                Build.as_int_or_str x = Some (Variant.persistent v)).
Proof.
  unfold Records.Variant_from_dict.
  destruct (Build.accepts Records.variant_fields "level" d) eqn:Ea; [|discriminate].
  apply accepts_iff in Ea as [_ Hreq]. apply lookup_in in Hreq as [lv Hlv].
  destruct (Build.field Build.as_str EmptyString "level" d) as [level|] eqn:E1; [|discriminate].
  destruct (Build.field Build.as_int 0 "bonus" d) as [bonus|] eqn:E2; [|discriminate].
  destruct (Build.field Build.as_int_or_str (Int 0) "damage" d) as [damage|] eqn:E3; [|discriminate].
  destruct (Build.field Build.as_int 0 "splash" d) as [splash|] eqn:E4; [|discriminate].
  destruct (Build.field Build.as_int_or_str (Int 0) "persistent" d) as [persistent|] eqn:E5;
    [|discriminate].
  intros [= <-]. cbn [Variant.level Variant.bonus Variant.damage Variant.splash Variant.persistent].
  apply field_given in E1 as [_ H1], E2 as [H2 H2'], E3 as [H3 H3'], E4 as [H4 H4'],
    E5 as [H5 H5'].
  assert (Hint : forall x m, Build.as_int x = Some m -> x = VInt m)
    by (intros x m; destruct x; cbn; congruence).
  repeat split; auto.
  specialize (H1 _ Hlv). rewrite Hlv. f_equal. destruct lv; cbn in H1; congruence.
Qed.

Lemma X24_witness :
  exists v,
    Records.Variant_from_dict (VDict [("level", VStr "lesser"); ("damage", VStr "1d6")])
    = Build.Done (Some v)
    /\ Variant.bonus v = 0 /\ Variant.persistent v = Int 0.
Proof.
  eexists. split; [reflexivity|].
  pose proof (X24_variant_fields [("level", VStr "lesser"); ("damage", VStr "1d6")] _ eq_refl)
    as (_ & Hb & _ & _ & _ & _ & _ & Hp & _).
  split; [exact (Hb eq_refl) | exact (Hp eq_refl)].
Defined.

(** X25.  [Bomb.from_dict] looks for ["levels"] first: a record without
    that key raises KeyError, whatever else it holds, and is left as it
    was. *)
Theorem X25_bomb_needs_levels (d : list (string * value)) :
  ~ In "levels" (map fst d) ->
  Records.Bomb_from_dict (VDict d) = (Build.Fails Build.KeyError, VDict d).
Proof.
  intros H. apply lookup_none in H. unfold Records.Bomb_from_dict. now rewrite H.
Qed.

Lemma X25_witness :
  Records.Bomb_from_dict (VDict [("kind", VStr "acid"); ("save", VInt 3)])
  = (Build.Fails Build.KeyError, VDict [("kind", VStr "acid"); ("save", VInt 3)]).
Proof.
  apply X25_bomb_needs_levels.
  intros [H | [H | []]]; discriminate H.
Defined.

(** What is left of the record after [Bomb.from_dict]. *)
Lemma bomb_rest (data : value) (r : Build.outcome Bomb.t) (rest : value) :
  Records.Bomb_from_dict data = (r, rest) ->
  (exists e, r = Build.Fails e /\ rest = data)
  \/ exists d, rest = VDict d /\ Build.lookup "levels" d = None.
Proof.
  unfold Records.Bomb_from_dict.
  destruct data as [| | | |d|d]; try (intros [= <- <-]; left; eexists; split; reflexivity).
  destruct (Build.lookup "levels" d) as [levels|] eqn:El;
    [| intros [= <- <-]; left; eexists; split; reflexivity].
  assert (H1 : Build.lookup "levels" (Build.remove "levels" d) = None)
    by apply lookup_remove_same.
  assert (H2 : Build.lookup "levels" (Build.remove "save" (Build.remove "levels" d)) = None)
    by (rewrite lookup_remove_other by discriminate; exact H1).
  destruct (Records.variants_of levels) as [e|variants];
    [intros [= <- <-]; right; eexists; split; [reflexivity | exact H1]|].
  destruct (Build.lookup "save" (Build.remove "levels" d)) as [sv|].
  - destruct (Records.Save_from_dict sv) as [e|s];
      [intros [= <- <-]; right; eexists; split; [reflexivity | exact H2]|].
    destruct (Build.accepts _ _ _); intros [= <- <-]; right; eexists;
      (split; [reflexivity | exact H2]).
  - destruct (Build.accepts _ _ _); intros [= <- <-]; right; eexists;
      (split; [reflexivity | exact H1]).
Qed.

(** X26.  [Bomb.from_dict] uses up the record it is given: after a call
    that built a bomb, the record no longer has the key ["levels"], and a
    second call on it raises KeyError. *)
Theorem X26_bomb_record_used_up (data : value) (b : option Bomb.t) (rest : value) :
  Records.Bomb_from_dict data = (Build.Done b, rest) ->
  Records.Bomb_from_dict rest = (Build.Fails Build.KeyError, rest).
Proof.
  intros H. destruct (bomb_rest _ _ _ H) as [(e & He & _) | (d & -> & Hl)]; [discriminate|].
  unfold Records.Bomb_from_dict. now rewrite Hl.
Qed.

Lemma X26_witness :
  let record := VDict [("type", VStr "acid");
                       ("levels", VLevels [(1, VDict [("level", VStr "lesser")])])] in
  exists b rest,
    Records.Bomb_from_dict record = (Build.Done (Some b), rest)
    /\ Records.Bomb_from_dict rest = (Build.Fails Build.KeyError, rest).
Proof.
  intros record. eexists. eexists.
  assert (H : Records.Bomb_from_dict record
              = (Build.Done (Some (Bomb.Build_t "acid" [(1, flat_tier "lesser" 0 0 0)]
                                                EmptyString EmptyString EmptyString None)),
                 VDict [("type", VStr "acid")])) by reflexivity.
  split; [exact H|]. exact (X26_bomb_record_used_up _ _ _ H).
Defined.

(** X27.  A bomb built by [Bomb.from_dict] holds the strings of the
    record unchanged ([type], and [on_hit], [on_crit] and [additional]
    when given, the empty string when not), has a save exactly when the
    record has the key ["save"], and has one tier for each key of
    ["levels"], in the order of the record. *)
Theorem X27_bomb_fields (d : list (string * value)) (b : Bomb.t) (rest : value) :
  Records.Bomb_from_dict (VDict d) = (Build.Done (Some b), rest) ->
  Build.lookup "type" d = Some (VStr (Bomb.type b))
  /\ (Build.lookup "on_hit" d = None -> Bomb.on_hit b = EmptyString)
  /\ (forall x, Build.lookup "on_hit" d = Some x -> x = VStr (Bomb.on_hit b))
  /\ (Build.lookup "on_crit" d = None -> Bomb.on_crit b = EmptyString)
  /\ (forall x, Build.lookup "on_crit" d = Some x -> x = VStr (Bomb.on_crit b))
  /\ (Build.lookup "additional" d = None -> Bomb.additional b = EmptyString)
  /\ (forall x, Build.lookup "additional" d = Some x -> x = VStr (Bomb.additional b))
  /\ (Bomb.save b = None <-> Build.lookup "save" d = None)
  /\ (forall l, Build.lookup "levels" d = Some (VLevels l) ->
                map fst (Bomb.levels b) = map fst l).
Proof.
  unfold Records.Bomb_from_dict.
  destruct (Build.lookup "levels" d) as [levels|] eqn:El; [|discriminate].
  destruct (Records.variants_of levels) as [e|variants] eqn:Ev; [discriminate|].
  set (d1 := Build.remove "levels" d).
  assert (Hsave : Build.lookup "save" d1 = Build.lookup "save" d)
    by (apply lookup_remove_other; discriminate).
  set (d2 := match Build.lookup "save" d1 with
             | Some _ => Build.remove "save" d1
             | None => d1
             end).
  assert (Hother : forall k, k <> "levels" -> k <> "save" ->
                             Build.lookup k d2 = Build.lookup k d).
  { intros k H1 H2. unfold d2. destruct (Build.lookup "save" d1).
    - rewrite lookup_remove_other by assumption. now apply lookup_remove_other.
    - now apply lookup_remove_other. }
  assert (Hgoal : forall save,
             (save = None <-> Build.lookup "save" d = None) ->
             (if Build.accepts Records.bomb_fields "type" d2
              then (Build.Done
                      match Build.field Build.as_str EmptyString "type" d2, variants,
                            Build.field Build.as_str EmptyString "on_hit" d2,
                            Build.field Build.as_str EmptyString "on_crit" d2,
                            Build.field Build.as_str EmptyString "additional" d2,
                            Some save with
                      | Some type, Some levels, Some on_hit, Some on_crit,
                        Some additional, Some save =>
                          Some {| Bomb.type := type; Bomb.levels := levels;
                                  Bomb.on_hit := on_hit; Bomb.on_crit := on_crit;
                                  Bomb.additional := additional; Bomb.save := save |}
                      | _, _, _, _, _, _ => None
                      end, VDict d2)
              else (Build.Fails Build.TypeError, VDict d2))
             = (Build.Done (Some b), rest) ->
             Build.lookup "type" d = Some (VStr (Bomb.type b))
             /\ (Build.lookup "on_hit" d = None -> Bomb.on_hit b = EmptyString)
             /\ (forall x, Build.lookup "on_hit" d = Some x -> x = VStr (Bomb.on_hit b))
             /\ (Build.lookup "on_crit" d = None -> Bomb.on_crit b = EmptyString)
             /\ (forall x, Build.lookup "on_crit" d = Some x -> x = VStr (Bomb.on_crit b))
             /\ (Build.lookup "additional" d = None -> Bomb.additional b = EmptyString)
             /\ (forall x, Build.lookup "additional" d = Some x ->
                           x = VStr (Bomb.additional b))
             /\ (Bomb.save b = None <-> Build.lookup "save" d = None)
             /\ (forall l, Some levels = Some (VLevels l) ->
                           map fst (Bomb.levels b) = map fst l)).
  { intros save Hs.
    destruct (Build.accepts Records.bomb_fields "type" d2) eqn:Ea; [|discriminate].
    apply accepts_iff in Ea as [_ Hreq]. apply lookup_in in Hreq as [tv Htv].
    destruct (Build.field Build.as_str EmptyString "type" d2) as [type|] eqn:E1; [|discriminate].
    destruct variants as [variants|]; [|discriminate].
    destruct (Build.field Build.as_str EmptyString "on_hit" d2) as [on_hit|] eqn:E2;
      [|discriminate].
    destruct (Build.field Build.as_str EmptyString "on_crit" d2) as [on_crit|] eqn:E3;
      [|discriminate].
    destruct (Build.field Build.as_str EmptyString "additional" d2) as [additional|] eqn:E4;
      [|discriminate].
    intros [= <- _].
    cbn [Bomb.type Bomb.levels Bomb.on_hit Bomb.on_crit Bomb.additional Bomb.save].
    apply field_given in E1 as [_ H1], E2 as [H2 H2'], E3 as [H3 H3'], E4 as [H4 H4'].
    rewrite !Hother in * by discriminate.
    assert (Hstr : forall x s, Build.as_str x = Some s -> x = VStr s)
      by (intros x s; destruct x; cbn; congruence).
    repeat split; auto; try (apply Hs).
    - rewrite Htv. f_equal. auto.
    - intros l [= ->]. cbn [Records.variants_of] in Ev. revert Ev.
      apply build_all_fst. intros kv v.
      destruct (Records.Variant_from_dict (snd kv)) as [e'|[v'|]]; cbn [option_map];
        try discriminate.
      intros [= <-]. reflexivity. }
  fold d1. unfold d2 in Hgoal. clear d2 Hother.
  destruct (Build.lookup "save" d1) as [sv|].
  - destruct (Records.Save_from_dict sv) as [e|[s|]]; [discriminate | | ].
    + apply (Hgoal (Some s)). rewrite <- Hsave. split; discriminate.
    + cbn [option_map].
      destruct (Build.accepts _ _ _); [|discriminate].
      repeat match goal with
             | |- context [match ?x with Some _ => _ | None => _ end] => destruct x
             end; discriminate.
  - apply (Hgoal None). rewrite <- Hsave. split; reflexivity.
Qed.

Lemma X27_witness :
  let record := [("type", VStr "acid"); ("additional", VStr "cold");
                 ("levels", VLevels [(1, VDict [("level", VStr "lesser")]);
                                     (3, VDict [("level", VStr "moderate")])])] in
  exists b rest,
    Records.Bomb_from_dict (VDict record) = (Build.Done (Some b), rest)
    /\ Bomb.on_hit b = EmptyString
    /\ map fst (Bomb.levels b) = [1; 3].
Proof.
  intros record. eexists. eexists.
  assert (H : Records.Bomb_from_dict (VDict record)
              = (Build.Done (Some (Bomb.Build_t "acid"
                                     [(1, flat_tier "lesser" 0 0 0);
                                      (3, flat_tier "moderate" 0 0 0)]
                                     EmptyString EmptyString "cold" None)),
                 VDict [("type", VStr "acid"); ("additional", VStr "cold")]))
    by reflexivity.
  split; [exact H|].
  destruct (X27_bomb_fields _ _ _ H) as (_ & Hh & _ & _ & _ & _ & _ & _ & Hl).
  split; [exact (Hh eq_refl) | exact (Hl _ eq_refl)].
Defined.

(** X28.  [read_bombs] keeps the names of the catalog and their order,
    and fails as a whole, building no catalog, exactly when the
    construction of some item fails. *)
Theorem X28_read_bombs (data : list (string * value)) :
  (forall bombs, Records.read_bombs data = Build.Done (Some bombs) ->
                 map fst bombs = map fst data)
  /\ ((exists e, Records.read_bombs data = Build.Fails e)
      <-> exists name record e,
          In (name, record) data
          /\ fst (Records.Bomb_from_dict record) = Build.Fails e).
Proof.
  unfold Records.read_bombs. split.
  - intros bombs. apply build_all_fst. intros kv b.
    destruct (fst (Records.Bomb_from_dict (snd kv))) as [e'|[b'|]]; cbn [option_map];
      try discriminate.
    intros [= <-]. reflexivity.
  - rewrite <- build_all_fails. split.
    + intros ([name record] & e & Hin & H). exists name, record. cbn [snd] in H.
      destruct (fst (Records.Bomb_from_dict record)) as [e'|b']; [|discriminate].
      exists e'. now split.
    + intros (name & record & e & Hin & H). exists (name, record), e. cbn [snd].
      now rewrite H.
Qed.

Lemma X28_witness :
  let good := VDict [("type", VStr "acid");
                     ("levels", VLevels [(1, VDict [("level", VStr "lesser")])])] in
  Records.read_bombs [("acid flask", good); ("frost vial", VDict [("type", VStr "cold")])]
  = Build.Fails Build.KeyError
  /\ exists bombs,
      Records.read_bombs [("acid flask", good); ("alkali flask", good)]
      = Build.Done (Some bombs)
      /\ map fst bombs = ["acid flask"; "alkali flask"].
Proof.
  intros good. split; [reflexivity|].
  eexists. split; [reflexivity|].
  apply (proj1 (X28_read_bombs [("acid flask", good); ("alkali flask", good)])).
  reflexivity.
Defined.
